(** * LAVA dispatcher: fastboot board drivers and the boot actions

    A shallow embedding of [lava_dispatcher/device/fastboot_drivers.py] and of
    [lava_dispatcher/actions/boot_control.py].

    The drivers are effectful Python: they mutate the driver object, raise
    exceptions, and talk to the outside world (the command runner, the
    downloader, the ramdisk tools, the logger).  The embedding is a state and
    exception monad over the mutable object, in which every interaction with
    the outside world is recorded, together with the answer it got, in a
    history.  The outside world itself is a parameter: an oracle that answers
    each call from the history so far. *)

From Stdlib Require Import String Ascii List ZArith Bool Lia DecimalString.
Import ListNotations.
Local Open Scope string_scope.
Local Open Scope Z_scope.

Set Implicit Arguments.

(** ** Python values and string formatting *)

Module Py.

(** A value that is either [None] or a [str]. *)
Definition value := option string.

(** [str(n)] for an [int]. *)
Definition str_int (n : Z) : string := NilZero.string_of_int (Z.to_int n).

(** The text a [%s] conversion produces. *)
Definition fmt (v : value) : string :=
  match v with
  | None => "None"
  | Some s => s
  end.

(** The value of a parameter that has a default. *)
Definition default {A} (d : A) (given : option A) : A :=
  match given with
  | Some a => a
  | None => d
  end.

(** Truth value of an optional string: [None] and the empty string are
    false. *)
Definition truthy (v : value) : bool :=
  match v with
  | None => false
  | Some s => negb (s =? EmptyString)%string
  end.

(** Characters removed by [str.strip()]. *)
Definition is_space (c : ascii) : bool :=
  let n := nat_of_ascii c in
  ((9 <=? n) && (n <=? 13) || (n =? 32))%nat.

Fixpoint lstrip (s : string) : string :=
  match s with
  | String c s' => if is_space c then lstrip s' else s
  | EmptyString => EmptyString
  end.

Fixpoint rstrip (s : string) : string :=
  match s with
  | String c s' =>
      match rstrip s' with
      | EmptyString => if is_space c then EmptyString else String c EmptyString
      | r => String c r
      end
  | EmptyString => EmptyString
  end.

Definition strip (s : string) : string := rstrip (lstrip s).

(** The double quote character, for command lines that contain one. *)
Definition dquote : string := String (ascii_of_nat 34) EmptyString.

(** A dict literal with [str] keys: later entries replace earlier ones
    with the same key. *)
Definition dict (V : Type) := list (string * V).

Definition dict_set {V} (k : string) (v : V) (d : dict V) : dict V :=
  (k, v) :: filter (fun kv => negb (fst kv =? k)%string) d.

Fixpoint dict_get {V} (d : dict V) (k : string) : option V :=
  match d with
  | [] => None
  | (k', v) :: d' => if (k' =? k)%string then Some v else dict_get d' k
  end.

Definition dict_literal {V} (entries : list (string * V)) : dict V :=
  fold_left (fun d kv => dict_set (fst kv) (snd kv) d) entries [].

End Py.

(** ** Exceptions *)

(** The exception classes the two modules raise or catch.  [OtherException]
    stands for any further subclass of [Exception]; [NonException] for the
    classes that derive from [BaseException] only ([KeyboardInterrupt],
    [SystemExit]), which an [except Exception] clause does not catch. *)
Inductive Exn :=
| CriticalError (msg : string)
| ADBConnectError (msg : string)
| CalledProcessError (returncode : Z) (cmd : string)
| KeyError (key : string)
| NotImplementedError (msg : string)
| OtherException (cls msg : string)
| NonException (cls : string).

(** [isinstance(e, Exception)]. *)
Definition is_Exception (e : Exn) : bool :=
  match e with
  | NonException _ => false
  | _ => true
  end.

Definition is_CalledProcessError (e : Exn) : bool :=
  match e with
  | CalledProcessError _ _ => true
  | _ => false
  end.

Definition is_ADBConnectError (e : Exn) : bool :=
  match e with
  | ADBConnectError _ => true
  | _ => false
  end.

(** ** Interactions with the outside world *)

Inductive LogLevel := DEBUG | INFO | ERROR | CRITICAL.

(** A session handle, as returned by [context.spawn] and
    [connect_to_serial]. *)
Definition Proc := Z.

(** One call made to a collaborator outside the two modules. *)
Inductive Call :=
| RunCommand (command : string) (failok : bool)
| CheckCall (argv : list string)
| Spawn (command : string) (timeout : Z)
| Sleep (seconds : Z)
| Logging (level : LogLevel) (msg : string) (args : list Exn)
| DownloadImage (url : string) (imgdir : Py.value) (decompress : bool)
| ExtractRamdisk (ramdisk : Py.value) (tmpdir : Py.value) (is_uboot : bool)
| ExtractModules (modules : string) (dest : string)
| CreateRamdisk (ramdisk_dir : string) (tmpdir : Py.value)
| Mkdtemp (basedir : string)
| ConnectToSerial
| FinalizeProcess (proc : Proc)
| BootLinaroAndroidImage (adb_check : bool).

(** What a call came back with. *)
Inductive Reply :=
| Done
| Status (rc : Z)
| Path (p : string)
| Handle (h : Proc)
| Raised (e : Exn).

Definition History := list (Call * Reply).

(** The outside world: how each kind of call is answered, given everything
    that happened before it. *)
Record World := {
  exit_status : History -> Call -> Z;
  path_result : History -> Call -> Exn + string;
  proc_result : History -> Call -> Exn + Proc;
  fault : History -> Call -> option Exn
}.

(** ** The monad: a mutable object, exceptions, and the history *)

Inductive Result (A : Type) :=
| Return (a : A)
| Raise (e : Exn).
Arguments Return {A} a.
Arguments Raise {A} e.

Record Store (S : Type) := mkStore {
  self : S;
  history : History
}.

Definition M (S A : Type) := World -> Store S -> Result A * Store S.

Definition ret {S A} (a : A) : M S A := fun _ st => (Return a, st).

Definition raise {S A} (e : Exn) : M S A := fun _ st => (Raise e, st).

Definition bind {S A B} (m : M S A) (k : A -> M S B) : M S B :=
  fun w st =>
    match m w st with
    | (Return a, st') => k a w st'
    | (Raise e, st') => (Raise e, st')
    end.

Declare Scope py_scope.
Delimit Scope py_scope with py.
Notation "x <- m ;; k" := (bind m (fun x => k))
  (at level 61, m at next level, right associativity) : py_scope.
Notation "m ;; k" := (bind m (fun _ => k))
  (at level 61, right associativity) : py_scope.
Local Open Scope py_scope.

(** One [except <class> as e: handler] clause: the test for the class and
    the handler. *)
Definition Except (S A : Type) := ((Exn -> bool) * (Exn -> M S A))%type.

Definition except {S A} (catches : Exn -> bool) (handler : Exn -> M S A) : Except S A :=
  (catches, handler).

(** [try: body except ...: ... except ...: ...].  The first clause whose
    class matches handles the exception; an exception raised by a handler is
    not offered to the other clauses. *)
Definition try_except {S A} (body : M S A) (clauses : list (Except S A)) : M S A :=
  fun w st =>
    match body w st with
    | (Raise e, st') =>
        match find (fun clause => fst clause e) clauses with
        | Some clause => snd clause e w st'
        | None => (Raise e, st')
        end
    | r => r
    end.

(** Reading and updating attributes of [self]. *)
Definition gets {S A} (f : S -> A) : M S A := fun _ st => (Return (f (self st)), st).

Definition modify {S} (f : S -> S) : M S unit :=
  fun _ st => (Return tt, mkStore (f (self st)) (history st)).

Definition record {S} (c : Call) (r : Reply) (st : Store S) : Store S :=
  mkStore (self st) (history st ++ [(c, r)])%list.

(** A call that always comes back ([sleep], the logger). *)
Definition call_done {S} (c : Call) : M S unit :=
  fun _ st => (Return tt, record c Done st).

(** A call answered with a process exit status. *)
Definition call_status {S} (c : Call) : M S Z :=
  fun w st =>
    let rc := exit_status w (history st) c in
    (Return rc, record c (Status rc) st).

(** A call that returns a path or raises. *)
Definition call_path {S} (c : Call) : M S string :=
  fun w st =>
    match path_result w (history st) c with
    | inr p => (Return p, record c (Path p) st)
    | inl e => (Raise e, record c (Raised e) st)
    end.

(** A call that returns a session handle or raises. *)
Definition call_proc {S} (c : Call) : M S Proc :=
  fun w st =>
    match proc_result w (history st) c with
    | inr h => (Return h, record c (Handle h) st)
    | inl e => (Raise e, record c (Raised e) st)
    end.

(** A call that returns nothing or raises. *)
Definition call_unit {S} (c : Call) : M S unit :=
  fun w st =>
    match fault w (history st) c with
    | None => (Return tt, record c Done st)
    | Some e => (Raise e, record c (Raised e) st)
    end.

(** ** Collaborators outside the two modules *)

(** Modelled from the spec: the value of [failok] when the caller of
    [context.run_command] does not pass it.  The runner returns the exit
    status; raising on a non-zero one is what a caller asks for. *)
Definition run_command_failok_default : bool := true.

(** Modelled from the spec: [context.run_command], the Command Runner, is not
    part of the two modules.  It executes the command line and returns its
    exit status; failure tolerance is optional, and a caller that passes
    [failok=False] gets a [CalledProcessError] for a non-zero status. *)
Definition run_command {S} (command : string) (failok : option bool) : M S Z :=
  let failok := Py.default run_command_failok_default failok in
  rc <- call_status (RunCommand command failok) ;;
  if failok then ret rc
  else if rc =? 0 then ret rc
  else raise (CalledProcessError rc command).

(** [subprocess.check_call(argv)]. *)
Definition check_call {S} (argv : list string) : M S unit :=
  rc <- call_status (CheckCall argv) ;;
  if rc =? 0 then ret tt
  else raise (CalledProcessError rc (String.concat " " argv)).

Definition sleep {S} (seconds : Z) : M S unit := call_done (Sleep seconds).

Definition logging {S} (level : LogLevel) (msg : string) (args : list Exn) : M S unit :=
  call_done (Logging level msg args).

Definition download_image {S} (url : string) (imgdir : Py.value) (decompress : bool)
  : M S string :=
  call_path (DownloadImage url imgdir decompress).

Definition extract_ramdisk {S} (ramdisk tmpdir : Py.value) (is_uboot : bool) : M S string :=
  call_path (ExtractRamdisk ramdisk tmpdir is_uboot).

Definition extract_modules {S} (modules dest : string) : M S unit :=
  call_unit (ExtractModules modules dest).

Definition create_ramdisk {S} (ramdisk_dir : string) (tmpdir : Py.value) : M S string :=
  call_path (CreateRamdisk ramdisk_dir tmpdir).

Definition mkdtemp {S} (basedir : string) : M S string := call_path (Mkdtemp basedir).

Definition connect_to_serial {S} : M S Proc := call_proc ConnectToSerial.

Definition finalize_process {S} (proc : Proc) : M S unit :=
  call_unit (FinalizeProcess proc).

Definition context_spawn {S} (cmd : string) (timeout : Z) : M S Proc :=
  call_proc (Spawn cmd timeout).

(** ** fastboot_drivers.py *)

(** The part of [device.config] the drivers read. *)
Record Config := {
  fastboot_command : string;
  adb_command : string;
  soft_boot_cmd : string;
  hard_reset_command : Py.value;
  fastboot_kernel_load_addr : Py.value;
  rootfs_partition : Py.value;
  shared_working_directory : Py.value;
  data_part_android_org : string;
  sys_part_android_org : string;
  connection_command : Py.value
}.

(** The driver classes. *)
Inductive Board :=
| BaseDriver
| fastboot
| nexus10
| fastboot_serial
| capri
| pxa1928dkb
| k3v2.

(** The attributes of a driver instance that change during a run. *)
Record Driver := mkDriver {
  target_type : Py.value;
  scratch_dir : Py.value;
  _default_boot_cmds : string;
  _kernel : Py.value;
  _ramdisk : Py.value;
  _working_dir : Py.value;
  __boot_image__ : Py.value
}.

(** [BaseDriver.__init__]. *)
Definition Driver_init : Driver := {|
  target_type := None;
  scratch_dir := None;
  _default_boot_cmds := "boot_cmds_ramdisk";
  _kernel := None;
  _ramdisk := None;
  _working_dir := None;
  __boot_image__ := None
|}.

Definition set_target_type (v : Py.value) (d : Driver) : Driver :=
  mkDriver v (scratch_dir d) (_default_boot_cmds d) (_kernel d) (_ramdisk d)
    (_working_dir d) (__boot_image__ d).

Definition set_scratch_dir (v : Py.value) (d : Driver) : Driver :=
  mkDriver (target_type d) v (_default_boot_cmds d) (_kernel d) (_ramdisk d)
    (_working_dir d) (__boot_image__ d).

Definition set_default_boot_cmds (v : string) (d : Driver) : Driver :=
  mkDriver (target_type d) (scratch_dir d) v (_kernel d) (_ramdisk d)
    (_working_dir d) (__boot_image__ d).

Definition set_kernel (v : Py.value) (d : Driver) : Driver :=
  mkDriver (target_type d) (scratch_dir d) (_default_boot_cmds d) v (_ramdisk d)
    (_working_dir d) (__boot_image__ d).

Definition set_ramdisk (v : Py.value) (d : Driver) : Driver :=
  mkDriver (target_type d) (scratch_dir d) (_default_boot_cmds d) (_kernel d) v
    (_working_dir d) (__boot_image__ d).

Definition set_working_dir (v : Py.value) (d : Driver) : Driver :=
  mkDriver (target_type d) (scratch_dir d) (_default_boot_cmds d) (_kernel d)
    (_ramdisk d) v (__boot_image__ d).

Definition set_boot_image (v : Py.value) (d : Driver) : Driver :=
  mkDriver (target_type d) (scratch_dir d) (_default_boot_cmds d) (_kernel d)
    (_ramdisk d) (_working_dir d) v.

Definition Drv := M Driver.

Section Drivers.

Variable config : Config.

(** [_call(context, cmd, ignore_failure, timeout)]. *)
Definition _call (cmd : string) (ignore_failure : bool) (timeout : Z) : Drv unit :=
  let cmd := "timeout -s SIGKILL " ++ Py.str_int timeout ++ "s " ++ cmd in
  run_command cmd (Some ignore_failure) ;;
  ret tt.

(** [BaseDriver.adb]; the result is the spawned session, if one was asked
    for. *)
Definition BaseDriver_adb (args : string) (ignore_failure spawn : option bool)
    (timeout : option Z) : Drv (option Proc) :=
  let ignore_failure := Py.default false ignore_failure in
  let spawn := Py.default false spawn in
  let timeout := Py.default 600 timeout in
  let cmd := adb_command config ++ " " ++ args in
  if spawn then
    p <- context_spawn cmd 60 ;;
    ret (Some p)
  else
    _call cmd ignore_failure timeout ;;
    ret None.

(** *** class FastBoot *)

(** [FastBoot.__call__]. *)
Definition FastBoot_call (args : string) (ignore_failure : option bool)
    (timeout : option Z) : Drv unit :=
  let ignore_failure := Py.default false ignore_failure in
  let timeout := Py.default 600 timeout in
  let command := fastboot_command config ++ " " ++ args in
  let command := "flock /var/lock/lava-fastboot.lck " ++ command in
  _call command ignore_failure timeout.

Definition FastBoot_enter : Drv unit :=
  try_except
    (BaseDriver_adb (soft_boot_cmd config) None None None ;;
     ret tt)
    [except is_CalledProcessError
       (fun _ =>
          if Py.truthy (hard_reset_command config) then
            logging DEBUG "Will hard reset the device" [] ;;
            run_command (Py.fmt (hard_reset_command config)) None ;;
            ret tt
          else
            logging CRITICAL
              "Hard reset command not configured. Please reset the device manually."
              [])].

Definition FastBoot_on : Drv bool :=
  try_except
    (logging INFO "Waiting for 10 seconds for connection to settle" [] ;;
     sleep 10 ;;
     FastBoot_call "getvar all" None (Some 2) ;;
     ret true)
    [except is_CalledProcessError (fun _ => ret false)].

Definition FastBoot_erase (partition : Py.value) : Drv unit :=
  FastBoot_call ("erase " ++ Py.fmt partition) None None.

Definition FastBoot_flash (partition image : Py.value) : Drv unit :=
  FastBoot_call ("flash " ++ Py.fmt partition ++ " " ++ Py.fmt image) None None.

Definition FastBoot_boot (image : Py.value) : Drv unit :=
  FastBoot_call "reboot" None None ;;
  sleep 10 ;;
  FastBoot_call ("boot " ++ Py.fmt image) None None.

(** *** class BaseDriver *)

Definition is_android (v : Py.value) : bool :=
  match v with
  | Some s => (s =? "android")%string
  | None => false
  end.

(** The [working_dir] property. *)
Definition BaseDriver_working_dir : Drv Py.value :=
  if match shared_working_directory config with
     | None => true
     | Some s => (Py.strip s =? EmptyString)%string
     end
  then gets scratch_dir
  else
    wd <- gets _working_dir ;;
    match wd with
    | None =>
        d <- mkdtemp (Py.fmt (shared_working_directory config)) ;;
        modify (set_working_dir (Some d))
    | Some _ => ret tt
    end ;;
    gets _working_dir.

Definition BaseDriver__get_image (url : string) : Drv string :=
  sdir <- BaseDriver_working_dir ;;
  image <- download_image url sdir true ;;
  ret image.

Definition BaseDriver__get_partition_mount_point (partition : string) : Drv string :=
  let lookup := Py.dict_literal
                  [(data_part_android_org config, "/data");
                   (sys_part_android_org config, "/system")] in
  match Py.dict_get lookup partition with
  | Some mount_point => ret mount_point
  | None => raise (KeyError partition)
  end.

Definition BaseDriver_connect : Drv (option Proc) := raise (NotImplementedError "connect").

Definition BaseDriver_enter_fastboot : Drv unit :=
  raise (NotImplementedError "enter_fastboot").

Definition BaseDriver_erase_boot : Drv unit := FastBoot_erase (Some "boot").

Definition capri_erase_boot : Drv unit := ret tt.

Definition pxa1928dkb_erase_boot : Drv unit := ret tt.

(** Method resolution for [self.erase_boot()]. *)
Definition erase_boot (cls : Board) : Drv unit :=
  match cls with
  | capri => capri_erase_boot
  | pxa1928dkb => pxa1928dkb_erase_boot
  | _ => BaseDriver_erase_boot
  end.

Definition BaseDriver_get_default_boot_cmds : Drv string := gets _default_boot_cmds.

Definition BaseDriver_boot (boot_cmds : Py.value) : Drv unit :=
  boot_image <- gets __boot_image__ ;;
  match boot_image with
  | None => raise (CriticalError "Deploy action must be run first")
  | Some _ =>
      kernel <- gets _kernel ;;
      match kernel with
      | Some _ =>
          ramdisk <- gets _ramdisk ;;
          match ramdisk with
          | Some _ =>
              if Py.truthy (fastboot_kernel_load_addr config) then
                FastBoot_call
                  ("boot -c " ++ Py.dquote ++ Py.fmt boot_cmds ++ Py.dquote
                   ++ " -b " ++ Py.fmt (fastboot_kernel_load_addr config)
                   ++ " " ++ Py.fmt kernel ++ " " ++ Py.fmt ramdisk)
                  None None
              else raise (CriticalError "Kernel load address not defined!")
          | None =>
              if Py.truthy (fastboot_kernel_load_addr config) then
                FastBoot_call
                  ("boot -c " ++ Py.dquote ++ Py.fmt boot_cmds ++ Py.dquote
                   ++ " -b " ++ Py.fmt (fastboot_kernel_load_addr config)
                   ++ " " ++ Py.fmt kernel)
                  None None
              else raise (CriticalError "Kernel load address not defined!")
          end
      | None => FastBoot_boot boot_image
      end
  end.

Definition BaseDriver_in_fastboot : Drv bool :=
  on <- FastBoot_on ;;
  if on then
    logging DEBUG "Device is in fastboot mode - no need to hard reset" [] ;;
    ret true
  else ret false.

Definition BaseDriver_finalize (proc : Proc) : Drv unit := finalize_process proc.

Definition BaseDriver_deploy_linaro_kernel
    (kernel ramdisk dtb modules rootfs nfsrootfs bootloader firmware bl1 bl2 bl31
       rootfstype bootloadertype target_type scratch_dir : Py.value) : Drv unit :=
  modify (set_target_type target_type) ;;
  modify (set_scratch_dir scratch_dir) ;;
  match kernel with
  | Some url =>
      image <- BaseDriver__get_image url ;;
      modify (set_kernel (Some image))
  | None => raise (CriticalError "A kernel image is required!")
  end ;;
  match ramdisk with
  | Some url =>
      image <- BaseDriver__get_image url ;;
      modify (set_ramdisk (Some image)) ;;
      match modules with
      | Some murl =>
          wd <- gets _working_dir ;;
          modules <- download_image murl wd false ;;
          rd <- gets _ramdisk ;;
          wdir <- BaseDriver_working_dir ;;
          ramdisk_dir <- extract_ramdisk rd wdir false ;;
          extract_modules modules ramdisk_dir ;;
          wd' <- gets _working_dir ;;
          repacked <- create_ramdisk ramdisk_dir wd' ;;
          modify (set_ramdisk (Some repacked))
      | None => ret tt
      end
  | None => ret tt
  end ;;
  match rootfs with
  | Some url =>
      modify (set_default_boot_cmds "boot_cmds_rootfs") ;;
      rootfs <- BaseDriver__get_image url ;;
      FastBoot_flash (rootfs_partition config) (Some rootfs)
  | None => ret tt
  end ;;
  modify (set_boot_image (Some "kernel")).

(** [deploy_android] is defined once, in the base class; [cls] is the class
    of [self], which decides what [self.erase_boot()] runs. *)
Definition BaseDriver_deploy_android (cls : Board)
    (boot system userdata rootfstype bootloadertype target_type scratch_dir : Py.value)
  : Drv unit :=
  modify (set_target_type target_type) ;;
  modify (set_scratch_dir scratch_dir) ;;
  erase_boot cls ;;
  boot <- match boot with
          | Some url => BaseDriver__get_image url
          | None => raise (CriticalError "A boot image is required!")
          end ;;
  match system with
  | Some url =>
      system <- BaseDriver__get_image url ;;
      FastBoot_flash (Some "system") (Some system)
  | None => ret tt
  end ;;
  match userdata with
  | Some url =>
      userdata <- BaseDriver__get_image url ;;
      FastBoot_flash (Some "userdata") (Some userdata)
  | None => ret tt
  end ;;
  modify (set_boot_image (Some boot)).

(** [adb_file_system] is a generator used as a context manager: the code up
    to the [yield], the yielded value, and the code after the [yield], which
    keeps the generator's local variables. *)
Definition BaseDriver_adb_file_system (partition directory : string)
  : Drv (string * Drv unit) :=
  mount_point <- BaseDriver__get_partition_mount_point partition ;;
  wd <- BaseDriver_working_dir ;;
  let host_dir := Py.fmt wd ++ "/mnt/" ++ directory in
  let target_dir := mount_point ++ "/" ++ directory in
  check_call ["mkdir"; "-p"; host_dir] ;;
  BaseDriver_adb ("pull " ++ target_dir ++ " " ++ host_dir) (Some true) None None ;;
  ret (host_dir,
       BaseDriver_adb ("push " ++ host_dir ++ " " ++ target_dir) None None None ;;
       ret tt).

(** *** class fastboot *)

Definition unsupported_kernel_deployment : Exn :=
  CriticalError "This platform does not support kernel deployment!".

Definition fastboot_deploy_linaro_kernel
    (kernel ramdisk dtb modules rootfs nfsrootfs bootloader firmware bl1 bl2 bl31
       rootfstype bootloadertype target_type scratch_dir : Py.value) : Drv unit :=
  raise unsupported_kernel_deployment.

Definition fastboot_enter_fastboot : Drv unit := FastBoot_enter.

Definition fastboot_connect : Drv (option Proc) :=
  tt_ <- gets target_type ;;
  if is_android tt_ then
    BaseDriver_adb "wait-for-device" None None None ;;
    proc <- BaseDriver_adb "shell" None (Some true) None ;;
    ret proc
  else raise (CriticalError "This device only supports Android!").

(** *** class nexus10 (fastboot) *)

Definition nexus10_deploy_linaro_kernel
    (kernel ramdisk dtb modules rootfs nfsrootfs bootloader firmware bl1 bl2 bl31
       rootfstype bootloadertype target_type scratch_dir : Py.value) : Drv unit :=
  raise unsupported_kernel_deployment.

Definition nexus10_boot (boot_cmds : Py.value) : Drv unit :=
  image <- gets __boot_image__ ;;
  FastBoot_flash (Some "boot") image ;;
  FastBoot_call "reboot" None None.

(** *** class fastboot_serial (BaseDriver) *)

Definition fastboot_serial_enter_fastboot : Drv unit := FastBoot_enter.

Definition fastboot_serial_connect : Drv (option Proc) :=
  proc <- (if Py.truthy (connection_command config) then connect_to_serial
           else raise (CriticalError "The connection_command is not defined!")) ;;
  tt_ <- gets target_type ;;
  (if is_android tt_ then
     BaseDriver_adb "wait-for-device" None None None ;;
     ret tt
   else ret tt) ;;
  ret (Some proc).

(** *** class capri (fastboot_serial) *)

Definition capri_deploy_linaro_kernel
    (kernel ramdisk dtb modules rootfs nfsrootfs bootloader firmware bl1 bl2 bl31
       rootfstype bootloadertype target_type scratch_dir : Py.value) : Drv unit :=
  raise unsupported_kernel_deployment.

Definition capri_boot (boot_cmds : Py.value) : Drv unit :=
  image <- gets __boot_image__ ;;
  FastBoot_flash (Some "boot") image ;;
  FastBoot_call "reboot" None None.

(** *** class pxa1928dkb (fastboot_serial) *)

Definition pxa1928dkb_deploy_linaro_kernel
    (kernel ramdisk dtb modules rootfs nfsrootfs bootloader firmware bl1 bl2 bl31
       rootfstype bootloadertype target_type scratch_dir : Py.value) : Drv unit :=
  raise unsupported_kernel_deployment.

Definition pxa1928dkb_connect : Drv (option Proc) :=
  proc <- (if Py.truthy (connection_command config) then connect_to_serial
           else raise (CriticalError "The connection_command is not defined!")) ;;
  ret (Some proc).

Definition pxa1928dkb_boot (boot_cmds : Py.value) : Drv unit :=
  image <- gets __boot_image__ ;;
  FastBoot_flash (Some "boot") image ;;
  FastBoot_call "reboot" None None ;;
  tt_ <- gets target_type ;;
  if is_android tt_ then
    BaseDriver_adb "wait-for-device" None None None ;;
    ret tt
  else ret tt.

(** *** class k3v2 (fastboot_serial) *)

Definition k3v2_deploy_linaro_kernel
    (kernel ramdisk dtb modules rootfs nfsrootfs bootloader firmware bl1 bl2 bl31
       rootfstype bootloadertype target_type scratch_dir : Py.value) : Drv unit :=
  raise unsupported_kernel_deployment.

Definition k3v2_enter_fastboot : Drv unit :=
  FastBoot_enter ;;
  sleep 10.

Definition k3v2_boot (boot_cmds : Py.value) : Drv unit :=
  image <- gets __boot_image__ ;;
  FastBoot_flash (Some "boot") image ;;
  FastBoot_call "reboot" None None.

(** *** Method resolution

    Which definition a call on an instance of class [cls] runs: the class's
    own, or the nearest one up the inheritance chain
    ([nexus10] < [fastboot] < [BaseDriver];
     [capri], [pxa1928dkb], [k3v2] < [fastboot_serial] < [BaseDriver]). *)

Definition connect (cls : Board) : Drv (option Proc) :=
  match cls with
  | BaseDriver => BaseDriver_connect
  | fastboot | nexus10 => fastboot_connect
  | fastboot_serial | capri | k3v2 => fastboot_serial_connect
  | pxa1928dkb => pxa1928dkb_connect
  end.

Definition enter_fastboot (cls : Board) : Drv unit :=
  match cls with
  | BaseDriver => BaseDriver_enter_fastboot
  | fastboot | nexus10 => fastboot_enter_fastboot
  | fastboot_serial | capri | pxa1928dkb => fastboot_serial_enter_fastboot
  | k3v2 => k3v2_enter_fastboot
  end.

Definition boot (cls : Board) (boot_cmds : Py.value) : Drv unit :=
  match cls with
  | BaseDriver | fastboot | fastboot_serial => BaseDriver_boot boot_cmds
  | nexus10 => nexus10_boot boot_cmds
  | capri => capri_boot boot_cmds
  | pxa1928dkb => pxa1928dkb_boot boot_cmds
  | k3v2 => k3v2_boot boot_cmds
  end.

Definition deploy_linaro_kernel (cls : Board) :=
  match cls with
  | BaseDriver | fastboot_serial => BaseDriver_deploy_linaro_kernel
  | fastboot => fastboot_deploy_linaro_kernel
  | nexus10 => nexus10_deploy_linaro_kernel
  | capri => capri_deploy_linaro_kernel
  | pxa1928dkb => pxa1928dkb_deploy_linaro_kernel
  | k3v2 => k3v2_deploy_linaro_kernel
  end.

Definition deploy_android (cls : Board) := BaseDriver_deploy_android cls.

End Drivers.

(** [with cm as v: body], for a context manager that [@contextmanager] makes
    from a generator with one [yield] and no [try] around it.  When the body
    finishes, the generator is resumed and runs to its end.  When the body
    raises, the exception is thrown into the generator at the [yield]; nothing
    there catches it, so the rest of the generator does not run and the
    exception propagates. *)
Definition with_contextmanager {S V A} (cm : M S (V * M S unit)) (body : V -> M S A)
  : M S A :=
  gen <- cm ;;
  a <- body (fst gen) ;;
  snd gen ;;
  ret a.

(** ** boot_control.py *)

(** The attributes of [self.client] that the boot actions assign
    ([client.config.*] and [client.target_device.boot_options]). *)
Record Client := mkClient {
  boot_cmds : option (list string);
  android_wait_for_home_screen_activity : Py.value;
  test_image_prompts : list string;
  boot_options : list string;
  android_wait_for_home_screen : bool;
  android_boot_uiautomator_jar : Py.value;
  android_boot_uiautomator_commands : option (list string)
}.

(** [client.boot_linaro_android_image(adb_check=...)], defined outside the
    two modules: it returns or raises. *)
Definition client_boot_linaro_android_image (adb_check : bool) : M Client unit :=
  call_unit (BootLinaroAndroidImage adb_check).

Definition cmd_boot_linaro_android_image_run
    (options : list string) (boot_cmds_arg : option (list string)) (adb_check : bool)
    (wait_for_home_screen : bool) (wait_for_home_screen_activity : Py.value)
    (test_image_prompt : Py.value) (boot_uiautomator_jar : Py.value)
    (boot_uiautomator_commands : option (list string)) : M Client unit :=
  match boot_cmds_arg with
  | Some _ =>
      modify (fun c => mkClient boot_cmds_arg (android_wait_for_home_screen_activity c)
                         (test_image_prompts c) (boot_options c)
                         (android_wait_for_home_screen c)
                         (android_boot_uiautomator_jar c)
                         (android_boot_uiautomator_commands c))
  | None => ret tt
  end ;;
  match wait_for_home_screen_activity with
  | Some _ =>
      modify (fun c => mkClient (boot_cmds c) wait_for_home_screen_activity
                         (test_image_prompts c) (boot_options c)
                         (android_wait_for_home_screen c)
                         (android_boot_uiautomator_jar c)
                         (android_boot_uiautomator_commands c))
  | None => ret tt
  end ;;
  match test_image_prompt with
  | Some prompt =>
      modify (fun c => mkClient (boot_cmds c) (android_wait_for_home_screen_activity c)
                         (test_image_prompts c ++ [prompt])%list (boot_options c)
                         (android_wait_for_home_screen c)
                         (android_boot_uiautomator_jar c)
                         (android_boot_uiautomator_commands c))
  | None => ret tt
  end ;;
  modify (fun c => mkClient (boot_cmds c) (android_wait_for_home_screen_activity c)
                     (test_image_prompts c) options
                     wait_for_home_screen
                     boot_uiautomator_jar
                     boot_uiautomator_commands) ;;
  try_except
    (client_boot_linaro_android_image adb_check)
    [except is_ADBConnectError
       (fun err =>
          logging ERROR
            "boot_linaro_android_image failed to create the adb connection: %s" [err] ;;
          raise err);
     except is_Exception
       (fun e =>
          logging ERROR "boot_linaro_android_image failed: %s" [e] ;;
          raise (CriticalError "Failed to boot test image."))].

(** *** cmd_boot_linaro_image

    The action keeps its verdict in a local variable that a handler assigns
    and the [finally] clause reads, so the embedding needs a frame for local
    variables and the [finally] clause itself. *)

(** [try: body finally: cleanup].  The cleanup runs whatever the body did;
    when the cleanup raises, its exception is the one that leaves the
    statement. *)
Definition try_finally {S A} (body : M S A) (cleanup : M S unit) : M S A :=
  fun w st =>
    match body w st with
    | (r, st') =>
        match cleanup w st' with
        | (Return _, st'') => (r, st'')
        | (Raise e, st'') => (Raise e, st'')
        end
    end.

(** A block with one local variable, of type [L], that starts as [init]. *)
Definition with_local {S L A} (init : L) (body : M (S * L) A) : M S A :=
  fun w st =>
    match body w (mkStore (self st, init) (history st)) with
    | (r, st') => (r, mkStore (fst (self st')) (history st'))
    end.

(** Code that does not touch the local variable, run inside the block. *)
Definition lift {S L A} (m : M S A) : M (S * L) A :=
  fun w st =>
    match m w (mkStore (fst (self st)) (history st)) with
    | (r, st') => (r, mkStore (self st', snd (self st)) (history st'))
    end.

Definition get_local {S L} : M (S * L) L := gets snd.

Definition set_local {S L} (v : L) : M (S * L) unit := modify (fun s => (fst s, v)).

Definition KeyboardInterrupt : Exn := NonException "KeyboardInterrupt".

Definition is_KeyboardInterrupt (e : Exn) : bool :=
  match e with
  | NonException cls => (cls =? "KeyboardInterrupt")%string
  | _ => false
  end.

(** A bare [except:] takes every exception. *)
Definition is_anything (e : Exn) : bool := true.

Section BootImage.

(** [client.boot_linaro_image()] and [context.test_data.add_result(name,
    status)] are defined outside the two modules: any computation over the
    client may stand for them. *)
Variable client_boot_linaro_image : M Client unit.
Variable test_data_add_result : string -> string -> M Client unit.

Definition cmd_boot_linaro_image_run
    (options : list string) (boot_cmds_arg : option (list string))
    (test_image_prompt : Py.value) : M Client unit :=
  match boot_cmds_arg with
  | Some _ =>
      modify (fun c => mkClient boot_cmds_arg (android_wait_for_home_screen_activity c)
                         (test_image_prompts c) (boot_options c)
                         (android_wait_for_home_screen c)
                         (android_boot_uiautomator_jar c)
                         (android_boot_uiautomator_commands c))
  | None => ret tt
  end ;;
  match test_image_prompt with
  | Some prompt =>
      modify (fun c => mkClient (boot_cmds c) (android_wait_for_home_screen_activity c)
                         (test_image_prompts c ++ [prompt])%list (boot_options c)
                         (android_wait_for_home_screen c)
                         (android_boot_uiautomator_jar c)
                         (android_boot_uiautomator_commands c))
  | None => ret tt
  end ;;
  modify (fun c => mkClient (boot_cmds c) (android_wait_for_home_screen_activity c)
                     (test_image_prompts c) options
                     (android_wait_for_home_screen c)
                     (android_boot_uiautomator_jar c)
                     (android_boot_uiautomator_commands c)) ;;
  with_local "pass"
    (try_finally
       (try_except
          (lift client_boot_linaro_image)
          [except is_KeyboardInterrupt (fun _ => raise KeyboardInterrupt);
           except is_anything
             (fun _ =>
                lift (logging ERROR "boot_linaro_image failed" []) ;;
                set_local "fail" ;;
                raise (CriticalError "Failed to boot test image."))])
       (status <- get_local ;;
        lift (test_data_add_result "boot_image" status))).

End BootImage.

(** ** Vocabulary of the specification *)

(** The command line handed to the command runner for one invocation of the
    flashing tool: the tool's own command line, run under [flock] on the
    host-wide lock file, the whole under [timeout -s SIGKILL]. *)
Definition fastboot_invocation (config : Config) (timeout : Z) (args : string) : string :=
  "timeout -s SIGKILL " ++ Py.str_int timeout ++ "s "
  ++ "flock /var/lock/lava-fastboot.lck " ++ fastboot_command config ++ " " ++ args.

(** The command line for one synchronous invocation of the debug bridge. *)
Definition adb_invocation (config : Config) (timeout : Z) (args : string) : string :=
  "timeout -s SIGKILL " ++ Py.str_int timeout ++ "s " ++ adb_command config ++ " " ++ args.

(** Running a computation: its outcome and the store it leaves. *)
Definition outcome {S A} (r : Result A * Store S) : Result A := fst r.
Definition final {S A} (r : Result A * Store S) : Store S := snd r.

(** The operations of the Flasher Client that invoke the flashing tool:
    [FastBoot.__call__] itself and the four methods that go through it. *)
Inductive FlasherOp :=
| fb_call (args : string) (ignore_failure : option bool) (timeout : option Z)
| fb_on
| fb_erase (partition : Py.value)
| fb_flash (partition image : Py.value)
| fb_boot (image : Py.value).

Definition flasher_run (config : Config) (op : FlasherOp) : Drv unit :=
  match op with
  | fb_call args ignore_failure timeout => FastBoot_call config args ignore_failure timeout
  | fb_on => FastBoot_on config ;; ret tt
  | fb_erase partition => FastBoot_erase config partition
  | fb_flash partition image => FastBoot_flash config partition image
  | fb_boot image => FastBoot_boot config image
  end.

(** The kill-timeout, in seconds, each operation asks for. *)
Definition flasher_timeout (op : FlasherOp) : Z :=
  match op with
  | fb_call _ _ (Some timeout) => timeout
  | fb_call _ _ None => 600
  | fb_on => 2
  | fb_erase _ | fb_flash _ _ | fb_boot _ => 600
  end.

(** A call is wrapped when, if it runs a command at all, the command is the
    flashing tool under the lock and under the kill-timeout [timeout]. *)
Definition wrapped (config : Config) (timeout : Z) (c : Call) : Prop :=
  match c with
  | RunCommand command _ => exists args, command = fastboot_invocation config timeout args
  | _ => True
  end.

(** The driver classes whose [deploy_linaro_kernel] rejects the deployment. *)
Definition kernel_rejecting_boards : list Board :=
  [fastboot; nexus10; capri; pxa1928dkb; k3v2].

(** The driver classes that define their own [boot]. *)
Definition boot_overriding_boards : list Board := [nexus10; capri; pxa1928dkb; k3v2].

(** The driver classes that run the base class's [boot]. *)
Definition boot_inheriting_boards : list Board := [BaseDriver; fastboot; fastboot_serial].

(** What [deploy_android] leaves in the driver when it stops at the missing
    boot image: the two attributes assigned before the check. *)
Definition after_deploy_preamble (target_type scratch_dir : Py.value) (d : Driver)
  : Driver :=
  set_scratch_dir scratch_dir (set_target_type target_type d).

(** The history records a push of [host_dir] back to [target_dir] through
    the bridge. *)
Definition pushed_back (config : Config) (host_dir target_dir : string) (h : History)
  : Prop :=
  exists r,
    In (RunCommand (adb_invocation config 600 ("push " ++ host_dir ++ " " ++ target_dir))
          false, r) h.

(** The commands handed to the command runner, in the order they ran. *)
Definition commands_run (h : History) : list string :=
  flat_map (fun cr => match fst cr with
                      | RunCommand command _ => [command]
                      | _ => []
                      end) h.

(** The history records a download of [url] that came back as [path]. *)
Definition downloaded (url path : string) (h : History) : Prop :=
  exists imgdir decompress, In (DownloadImage url imgdir decompress, Path path) h.

(** The world lets every command, every path-returning collaborator and
    every other collaborator succeed. *)
Definition commands_succeed (w : World) : Prop := forall h c, exit_status w h c = 0.
Definition paths_succeed (w : World) : Prop := forall h c, exists p, path_result w h c = inr p.
Definition no_fault (w : World) : Prop := forall h c, fault w h c = None.

(** What [erase_boot] hands to the command runner on a board of class [cls]. *)
Definition erase_boot_commands (config : Config) (cls : Board) : list string :=
  match cls with
  | capri | pxa1928dkb => []
  | _ => [fastboot_invocation config 600 "erase boot"]
  end.

(** The driver classes whose [deploy_linaro_kernel] is the base class's. *)
Definition kernel_deploying_boards : list Board := [BaseDriver; fastboot_serial].

(** [run] occurs in [l] as one uninterrupted stretch. *)
Definition consecutive {X} (run l : list X) : Prop :=
  exists before after, l = (before ++ run ++ after)%list.

(** The boot command for a kernel and a ramdisk. *)
Definition kernel_boot_args (config : Config) (boot_cmds : Py.value)
    (kernel ramdisk : string) : string :=
  "boot -c " ++ Py.dquote ++ Py.fmt boot_cmds ++ Py.dquote
  ++ " -b " ++ Py.fmt (fastboot_kernel_load_addr config) ++ " " ++ kernel ++ " " ++ ramdisk.

(** ** The states a driver can be in

    A driver starts from [BaseDriver.__init__] and changes only through its
    methods.  [Op] lists the calls a user of the driver can make; a [with]
    block over [adb_file_system] is the generator's first half, the calls of
    the block, and the bridge call of the second half. *)
Inductive Op :=
| op_connect
| op_enter_fastboot
| op_erase_boot
| op_get_default_boot_cmds
| op_boot (boot_cmds : Py.value)
| op_in_fastboot
| op_finalize (proc : Proc)
| op_deploy_linaro_kernel
    (kernel ramdisk dtb modules rootfs nfsrootfs bootloader firmware bl1 bl2 bl31
       rootfstype bootloadertype target_type scratch_dir : Py.value)
| op_deploy_android
    (boot system userdata rootfstype bootloadertype target_type scratch_dir : Py.value)
| op_adb (args : string) (ignore_failure spawn : option bool) (timeout : option Z)
| op_working_dir
| op_adb_file_system (partition directory : string)
| op_fastboot (op : FlasherOp)
| op_fastboot_enter.

(** Running one call on a driver of class [cls]; the value it returns is
    dropped. *)
Definition perform (config : Config) (cls : Board) (op : Op) : Drv unit :=
  match op with
  | op_connect => connect config cls ;; ret tt
  | op_enter_fastboot => enter_fastboot config cls
  | op_erase_boot => erase_boot config cls
  | op_get_default_boot_cmds => BaseDriver_get_default_boot_cmds ;; ret tt
  | op_boot boot_cmds => boot config cls boot_cmds
  | op_in_fastboot => BaseDriver_in_fastboot config ;; ret tt
  | op_finalize proc => BaseDriver_finalize proc
  | op_deploy_linaro_kernel kernel ramdisk dtb modules rootfs nfsrootfs bootloader
      firmware bl1 bl2 bl31 rootfstype bootloadertype target_type scratch_dir =>
      deploy_linaro_kernel config cls kernel ramdisk dtb modules rootfs nfsrootfs
        bootloader firmware bl1 bl2 bl31 rootfstype bootloadertype target_type
        scratch_dir
  | op_deploy_android boot system userdata rootfstype bootloadertype target_type
      scratch_dir =>
      deploy_android config cls boot system userdata rootfstype bootloadertype
        target_type scratch_dir
  | op_adb args ignore_failure spawn timeout =>
      BaseDriver_adb config args ignore_failure spawn timeout ;; ret tt
  | op_working_dir => BaseDriver_working_dir config ;; ret tt
  | op_adb_file_system partition directory =>
      BaseDriver_adb_file_system config partition directory ;; ret tt
  | op_fastboot op => flasher_run config op
  | op_fastboot_enter => FastBoot_enter config
  end.

(** The stores a driver of class [cls] can reach in world [w]. *)
Inductive reachable (config : Config) (w : World) (cls : Board) : Store Driver -> Prop :=
| reachable_init (h : History) : reachable config w cls (mkStore Driver_init h)
| reachable_step (st : Store Driver) (op : Op) :
    reachable config w cls st ->
    reachable config w cls (final (perform config cls op w st)).

(** A computation that leaves [self._kernel] as it found it. *)
Definition keeps_kernel {A} (m : Drv A) : Prop :=
  forall w st, _kernel (self (final (m w st))) = _kernel (self st).

(** ** Example configuration and worlds *)

Definition example_config : Config := {|
  fastboot_command := "fastboot -s 0123456789";
  adb_command := "adb -s 0123456789";
  soft_boot_cmd := "reboot bootloader";
  hard_reset_command := Some "pduclient --reset";
  fastboot_kernel_load_addr := Some "0x80008000";
  rootfs_partition := Some "userdata";
  shared_working_directory := None;
  data_part_android_org := "userdata";
  sys_part_android_org := "system";
  connection_command := None
|}.

(** A world in which everything succeeds.  A download lands under the
    directory it was given; the ramdisk tools name their results after their
    working directory. *)
Definition world_ok : World := {|
  exit_status := fun _ _ => 0;
  path_result := fun _ c =>
    match c with
    | DownloadImage url imgdir _ => inr (Py.fmt imgdir ++ "/" ++ url)
    | ExtractRamdisk _ tmpdir _ => inr (Py.fmt tmpdir ++ "/ramdisk.extracted")
    | CreateRamdisk _ tmpdir => inr (Py.fmt tmpdir ++ "/ramdisk.repacked")
    | Mkdtemp basedir => inr (basedir ++ "/tmp0")
    | _ => inr "/tmp"
    end;
  proc_result := fun _ _ => inr 1;
  fault := fun _ _ => None
|}.

(** A world in which every external command exits with status 1. *)
Definition world_commands_fail : World := {|
  exit_status := fun _ _ => 1;
  path_result := path_result world_ok;
  proc_result := proc_result world_ok;
  fault := fault world_ok
|}.

(** A fresh driver, before anything was recorded. *)
Definition fresh : Store Driver := mkStore Driver_init [].

(** A driver that was given a scratch directory. *)
Definition staged : Store Driver :=
  mkStore (set_scratch_dir (Some "/scratch") Driver_init) [].

(** A caller that writes one file into the staging directory. *)
Definition writing_body (host_dir : string) : Drv unit :=
  check_call ["touch"; host_dir ++ "/marker"].

(** A caller that fails inside the scope. *)
Definition failing_body (host_dir : string) : Drv unit :=
  check_call ["touch"; host_dir ++ "/marker"] ;;
  raise (OtherException "IOError" "No space left on device").

(** The OS-image deploy of the scenario: a boot image and a system image, no
    userdata image. *)
Definition scenario_deploy : Result unit * Store Driver :=
  deploy_android example_config fastboot (Some "img1") (Some "img2") None None None
    (Some "android") (Some "/scratch") world_ok fresh.

(** The kernel deploy of the scenario: a kernel, a ramdisk and modules. *)
Definition scenario_kernel_deploy : Result unit * Store Driver :=
  deploy_linaro_kernel example_config fastboot_serial (Some "zImage")
    (Some "ramdisk.cpio.gz") None (Some "modules.tar.gz") None None None None None None
    None None None (Some "oe") (Some "/scratch") world_ok fresh.

(** A board with no kernel load address configured. *)
Definition config_without_load_addr : Config := {|
  fastboot_command := "fastboot";
  adb_command := "adb";
  soft_boot_cmd := "reboot bootloader";
  hard_reset_command := None;
  fastboot_kernel_load_addr := None;
  rootfs_partition := Some "userdata";
  shared_working_directory := Some "/var/lib/lava/shared";
  data_part_android_org := "userdata";
  sys_part_android_org := "system";
  connection_command := Some "telnet localhost 2000"
|}.

(** A kernel-only deploy on that board. *)
Definition kernel_only_deploy : Op :=
  op_deploy_linaro_kernel (Some "zImage") None None None None None None None None None
    None None None (Some "oe") (Some "/scratch").

Definition after_kernel_only_deploy : Store Driver :=
  final (perform config_without_load_addr fastboot_serial kernel_only_deploy world_ok fresh).

(** A world in which the boot of the android image times out. *)
Definition boot_timeout : Exn := OtherException "pexpect.TIMEOUT" "Timeout exceeded.".

Definition world_boot_times_out : World := {|
  exit_status := exit_status world_ok;
  path_result := path_result world_ok;
  proc_result := proc_result world_ok;
  fault := fun _ c =>
    match c with
    | BootLinaroAndroidImage _ => Some boot_timeout
    | _ => None
    end
|}.

(** A client before the action ran. *)
Definition client0 : Store Client := mkStore {|
  boot_cmds := None;
  android_wait_for_home_screen_activity := None;
  test_image_prompts := ["root@linaro:"];
  boot_options := [];
  android_wait_for_home_screen := true;
  android_boot_uiautomator_jar := None;
  android_boot_uiautomator_commands := None
|} [].

(** ** Vocabulary of the further properties *)

(** A kernel deploy on a board that has a load address. *)
Definition after_scenario_kernel_deploy : Store Driver := final scenario_kernel_deploy.

(** The calls that go to the ramdisk tools. *)
Definition is_ramdisk_tool (c : Call) : bool :=
  match c with
  | ExtractRamdisk _ _ _ | ExtractModules _ _ | CreateRamdisk _ _ => true
  | _ => false
  end.

(** The flash of [partition] with [image], as handed to the command runner. *)
Definition flash_command (config : Config) (partition image : string) : string :=
  fastboot_invocation config 600 ("flash " ++ partition ++ " " ++ image).

(** What an optional image contributes to a deploy: nothing when it is not
    given, else its download and the flash of [partition] with what was
    downloaded. *)
Definition flashed_if_given (config : Config) (partition : string) (url : Py.value)
    (new : History) (commands : list string) : Prop :=
  match url with
  | None => commands = []
  | Some url =>
      exists path, downloaded url path new /\ commands = [flash_command config partition path]
  end.

(** A computation that leaves one attribute of the driver as it found it. *)
Definition leaves {X A} (field : Driver -> X) (m : Drv A) : Prop :=
  forall w st, field (self (final (m w st))) = field (self st).

(** A computation that assigns the boot target only as its very last step:
    when it raises, the boot target is what it was; when it returns, there is
    one. *)
Definition sets_boot_target_last {A} (m : Drv A) : Prop :=
  forall w st,
    match outcome (m w st) with
    | Raise _ => __boot_image__ (self (final (m w st))) = __boot_image__ (self st)
    | Return _ => __boot_image__ (self (final (m w st))) <> None
    end.

(** A kernel-only deploy with a root file system, on a board that has a load
    address. *)
Definition scenario_rootfs_deploy : Result unit * Store Driver :=
  deploy_linaro_kernel example_config BaseDriver (Some "zImage") None None None
    (Some "rootfs.img") None None None None None None None None (Some "oe")
    (Some "/scratch") world_ok fresh.

(** An OS-image deploy with all three images. *)
Definition scenario_full_deploy : Result unit * Store Driver :=
  deploy_android example_config nexus10 (Some "boot.img") (Some "system.img")
    (Some "userdata.img") None None (Some "android") (Some "/scratch") world_ok fresh.

(** How one call may change a driver: a kernel artifact is never cleared, a
    working directory, once made, is kept, and the default boot commands stay
    or become the rootfs profile. *)
Definition evolves (d d' : Driver) : Prop :=
  (_kernel d <> None -> _kernel d' <> None)
  /\ (forall dir, _working_dir d = Some dir -> _working_dir d' = Some dir)
  /\ (_default_boot_cmds d' = _default_boot_cmds d
      \/ _default_boot_cmds d' = "boot_cmds_rootfs").

(** A computation whose effect on the driver stays within a relation. *)
Definition respects {A} (R : Driver -> Driver -> Prop) (m : Drv A) : Prop :=
  forall w st, R (self st) (self (final (m w st))).

(** A driver on which a kernel deploy was followed by an OS-image deploy. *)
Definition kernel_then_android : Store Driver :=
  final (perform example_config fastboot_serial
           (op_deploy_android (Some "boot.img") None None None None (Some "android")
              (Some "/scratch"))
           world_ok after_scenario_kernel_deploy).

(** How a statement with a [finally] clause ends, given what its body came to
    and what the clause came back with. *)
Definition finish {S A} (r : Result A) (cleanup : Result unit * Store S)
  : Result A * Store S :=
  match cleanup with
  | (Return _, st) => (r, st)
  | (Raise e, st) => (Raise e, st)
  end.

(** The client as [cmd_boot_linaro_image.run] hands it to the boot. *)
Definition boot_image_client (options : list string)
    (boot_cmds_arg : option (list string)) (test_image_prompt : Py.value) (c : Client)
  : Client :=
  mkClient
    match boot_cmds_arg with
    | Some _ => boot_cmds_arg
    | None => boot_cmds c
    end
    (android_wait_for_home_screen_activity c)
    match test_image_prompt with
    | Some prompt => (test_image_prompts c ++ [prompt])%list
    | None => test_image_prompts c
    end
    options
    (android_wait_for_home_screen c)
    (android_boot_uiautomator_jar c)
    (android_boot_uiautomator_commands c).

(** A partition the example configuration does not know. *)
Definition unknown_partition : string := "cache".

(** A driver after the OS-image deploy of the scenario. *)
Definition after_scenario_deploy : Store Driver := final scenario_deploy.

(** ** Symbolic execution *)

Ltac unfold_code :=
  cbv beta iota zeta delta
    [bind ret raise gets modify try_except except record outcome final
     call_done call_status call_path call_proc call_unit
     run_command run_command_failok_default check_call sleep logging
     download_image extract_ramdisk extract_modules create_ramdisk mkdtemp
     connect_to_serial finalize_process context_spawn
     _call BaseDriver_adb FastBoot_call FastBoot_enter FastBoot_on FastBoot_erase
     FastBoot_flash FastBoot_boot
     BaseDriver_working_dir BaseDriver__get_image BaseDriver__get_partition_mount_point
     BaseDriver_connect BaseDriver_enter_fastboot BaseDriver_erase_boot
     capri_erase_boot pxa1928dkb_erase_boot erase_boot BaseDriver_get_default_boot_cmds
     BaseDriver_boot BaseDriver_in_fastboot BaseDriver_finalize
     BaseDriver_deploy_linaro_kernel BaseDriver_deploy_android
     BaseDriver_adb_file_system unsupported_kernel_deployment
     fastboot_deploy_linaro_kernel fastboot_enter_fastboot fastboot_connect
     nexus10_deploy_linaro_kernel nexus10_boot fastboot_serial_enter_fastboot
     fastboot_serial_connect capri_deploy_linaro_kernel capri_boot
     pxa1928dkb_deploy_linaro_kernel pxa1928dkb_connect pxa1928dkb_boot
     k3v2_deploy_linaro_kernel k3v2_enter_fastboot k3v2_boot
     connect enter_fastboot boot deploy_linaro_kernel deploy_android
     with_contextmanager flasher_run
     client_boot_linaro_android_image cmd_boot_linaro_android_image_run
     set_target_type set_scratch_dir set_default_boot_cmds set_kernel set_ramdisk
     set_working_dir set_boot_image after_deploy_preamble
     find fst snd].

Ltac project :=
  cbn [self history target_type scratch_dir _default_boot_cmds _kernel _ramdisk
       _working_dir __boot_image__
       boot_cmds android_wait_for_home_screen_activity test_image_prompts boot_options
       android_wait_for_home_screen android_boot_uiautomator_jar
       android_boot_uiautomator_commands
       is_CalledProcessError is_ADBConnectError is_Exception Py.default Py.fmt].

Ltac step := repeat (progress (unfold_code; project)).

(** Case analysis on the exit status the goal tests. *)
Ltac case_status :=
  match goal with
  | |- context [?rc =? 0] => destruct (Z.eqb_spec rc 0)
  end.

Ltac norm_history := repeat rewrite <- app_assoc; cbn [app].

(** One step of a run in a world where everything succeeds: take the answer
    of the oracle the goal is stuck on from the hypotheses, or split on the
    configuration and the driver attribute that decide the working
    directory. *)
Ltac answer :=
  match goal with
  | Hs : commands_succeed ?w |- context [exit_status ?w ?h ?c] =>
      rewrite (Hs h c); change (0 =? 0) with true
  | Hp : paths_succeed ?w |- context [path_result ?w ?h ?c] =>
      let p := fresh "p" in
      let E := fresh "E" in
      destruct (Hp h c) as [p E]; rewrite E; clear E
  | Hf : no_fault ?w |- context [fault ?w ?h ?c] => rewrite (Hf h c)
  | |- context [shared_working_directory ?config] =>
      destruct (shared_working_directory config)
  | |- context [(Py.strip ?s =? EmptyString)%string] =>
      destruct (Py.strip s =? EmptyString)%string
  | |- context [_working_dir ?d] => is_var d; destruct (_working_dir d)
  | H : Py.truthy ?v = _ |- context [Py.truthy ?v] => rewrite H
  end.

Ltac crank := step; repeat (answer; step).

Ltac found := cbn [In]; repeat first [left; reflexivity | right].

(** The events of a history up to the extraction of the ramdisk. *)
Ltac upto_extraction l :=
  lazymatch l with
  | (ExtractRamdisk _ _ _, _) :: _ => constr:(@nil (Call * Reply))
  | ?x :: ?l' => let r := upto_extraction l' in constr:(x :: r)
  end.

(** ** The enter-flash-mode escalation *)

(** C4.  When the soft reset, run through the bridge, comes back with a
    failure of the external command, [FastBoot.enter] does not raise.  With a
    hard-reset command configured it logs and then runs that command, once;
    with none configured it logs the request for a manual reset at the
    critical level and runs nothing more. *)
Theorem FastBoot_enter_escalation (config : Config) (w : World) (st : Store Driver) :
  let soft := RunCommand (adb_invocation config 600 (soft_boot_cmd config)) false in
  let rc := exit_status w (history st) soft in
  rc <> 0 ->
  (Py.truthy (hard_reset_command config) = true ->
   let h1 := (history st
              ++ [(soft, Status rc);
                  (Logging DEBUG "Will hard reset the device" [], Done)])%list in
   let hard := RunCommand (Py.fmt (hard_reset_command config)) true in
   FastBoot_enter config w st
   = (Return tt,
      mkStore (self st) (h1 ++ [(hard, Status (exit_status w h1 hard))])%list))
  /\
  (Py.truthy (hard_reset_command config) = false ->
   FastBoot_enter config w st
   = (Return tt,
      mkStore (self st)
        (history st
         ++ [(soft, Status rc);
             (Logging CRITICAL
                "Hard reset command not configured. Please reset the device manually."
                [], Done)])%list)).
Proof.
  intros soft rc Hrc. subst rc soft. destruct st as [d h].
  unfold adb_invocation in *. step.
  split; intros Hhard; case_status; try contradiction; step; rewrite Hhard; step;
    norm_history; reflexivity.
Qed.

(** ** Every flashing-tool invocation is wrapped *)

Lemma wrapped_here (config : Config) (timeout : Z) (args : string) (failok : bool) :
  wrapped config timeout (RunCommand (fastboot_invocation config timeout args) failok).
Proof. exists args. reflexivity. Qed.

(** C8.  Whatever the operation of the Flasher Client and however the world
    answers, every command the operation hands to the command runner is the
    flashing tool's command line run under [flock] on the one lock file
    [/var/lock/lava-fastboot.lck], itself run under [timeout -s SIGKILL] with
    the operation's timeout: 600 seconds unless the caller gives another, and
    2 seconds for the liveness probe. *)
Theorem flasher_invocations_wrapped (config : Config) (op : FlasherOp) (w : World)
    (st : Store Driver) :
  (exists new,
      history (final (flasher_run config op w st)) = (history st ++ new)%list
      /\ Forall (fun cr => wrapped config (flasher_timeout op) (fst cr)) new)
  /\ (forall args ignore_failure,
         flasher_timeout (fb_call args ignore_failure None) = 600)
  /\ flasher_timeout fb_on < 600.
Proof.
  split; [| split; [reflexivity | reflexivity]].
  destruct st as [d h].
  destruct op as [args ign [t|] | | p | p i | i]; step;
    repeat (first [case_status | destruct ign as [[|]|]]; step);
    norm_history; eexists; (split; [reflexivity |]);
    repeat constructor; cbn [fst]; try apply wrapped_here.
Qed.

(** ** Kernel deployment on the boards that reject it *)

(** C6.  On each of [fastboot], [nexus10], [capri], [pxa1928dkb] and [k3v2],
    [deploy_linaro_kernel] raises the unsupported-operation error whatever its
    arguments, and leaves the driver and the history exactly as they were: no
    call reached the flashing tool, the bridge or any other collaborator. *)
Theorem kernel_deployment_rejected :
  Forall
    (fun cls =>
       forall config kernel ramdisk dtb modules rootfs nfsrootfs bootloader firmware
              bl1 bl2 bl31 rootfstype bootloadertype target_type scratch_dir w st,
         deploy_linaro_kernel config cls kernel ramdisk dtb modules rootfs nfsrootfs
           bootloader firmware bl1 bl2 bl31 rootfstype bootloadertype target_type
           scratch_dir w st
         = (Raise (CriticalError "This platform does not support kernel deployment!"),
            st))
    kernel_rejecting_boards.
Proof.
  unfold kernel_rejecting_boards. repeat constructor.
Qed.

(** ** Deploying without a boot image *)

(** C10.  [deploy_android] with [boot=None] always ends in an exception, and
    the check for the boot image comes after [self.erase_boot()].  On the
    boards whose [erase_boot] does nothing the history is unchanged; on all
    others the erase of the boot partition has been handed to the flashing
    tool by the time the exception surfaces.  The exception is the fatal
    [CriticalError] whenever the erase came back with status 0 (otherwise it
    is the failure of the erase itself).  The driver keeps the target type and
    scratch directory already assigned: nothing is rolled back. *)
Theorem deploy_android_without_boot_image (config : Config) (cls : Board)
    (system userdata rootfstype bootloadertype target_type scratch_dir : Py.value)
    (w : World) (st : Store Driver) :
  let run :=
    deploy_android config cls None system userdata rootfstype bootloadertype
      target_type scratch_dir w st in
  let d' := after_deploy_preamble target_type scratch_dir (self st) in
  let erase := RunCommand (fastboot_invocation config 600 "erase boot") false in
  let rc := exit_status w (history st) erase in
  match cls with
  | capri | pxa1928dkb =>
      run = (Raise (CriticalError "A boot image is required!"), mkStore d' (history st))
  | _ =>
      run = (Raise (if rc =? 0 then CriticalError "A boot image is required!"
                    else CalledProcessError rc (fastboot_invocation config 600 "erase boot")),
             mkStore d' (history st ++ [(erase, Status rc)])%list)
  end.
Proof.
  destruct st as [d h]. unfold fastboot_invocation.
  destruct cls; step; cbn [append]; try reflexivity; case_status; reflexivity.
Qed.

(** ** Booting before a deploy *)

(** The base class's [boot] checks for the boot image first: without one it
    raises the fatal error and touches nothing. *)
Lemma BaseDriver_boot_before_deploy (config : Config) (boot_cmds : Py.value)
    (w : World) (st : Store Driver) :
  __boot_image__ (self st) = None ->
  Forall
    (fun cls =>
       boot config cls boot_cmds w st
       = (Raise (CriticalError "Deploy action must be run first"), st))
    boot_inheriting_boards.
Proof.
  intros H. destruct st as [d h]. cbn [self] in H.
  unfold boot_inheriting_boards.
  repeat apply Forall_cons; try apply Forall_nil; step; rewrite H; reflexivity.
Qed.

(** C3, at the failing input.  On the four boards that define their own
    [boot], a boot on a driver that never deployed raises no fatal error
    first: the first thing that happens is a flash of the boot partition, with
    the unset boot image formatted as [None]. *)
Theorem boot_before_deploy_reaches_flasher :
  Forall
    (fun cls =>
       forall config boot_cmds w h,
       exists rc rest,
         history (final (boot config cls boot_cmds w (mkStore Driver_init h)))
         = (h ++ (RunCommand (fastboot_invocation config 600 "flash boot None") false,
                  Status rc) :: rest)%list)
    boot_overriding_boards.
Proof.
  unfold boot_overriding_boards, fastboot_invocation.
  repeat constructor; intros; cbv [Driver_init]; step;
    repeat (case_status; step);
    norm_history; eexists; eexists; reflexivity.
Qed.

(** ** Failures of the android boot action *)

(** C9.  When [client.boot_linaro_android_image] raises, the action logs the
    exception and raises in turn: an [ADBConnectError] is raised again as it
    is, every other exception of class [Exception] is replaced by the one
    fatal [CriticalError]. *)
Theorem android_boot_failure
    (options : list string) (boot_cmds_arg : option (list string)) (adb_check : bool)
    (wait_for_home_screen : bool) (wait_for_home_screen_activity : Py.value)
    (test_image_prompt : Py.value) (boot_uiautomator_jar : Py.value)
    (boot_uiautomator_commands : option (list string))
    (w : World) (st : Store Client) (e : Exn) :
  let run :=
    cmd_boot_linaro_android_image_run options boot_cmds_arg adb_check
      wait_for_home_screen wait_for_home_screen_activity test_image_prompt
      boot_uiautomator_jar boot_uiautomator_commands w st in
  let attempt := BootLinaroAndroidImage adb_check in
  fault w (history st) attempt = Some e ->
  (is_ADBConnectError e = true ->
   outcome run = Raise e
   /\ history (final run)
      = (history st
         ++ [(attempt, Raised e);
             (Logging ERROR
                "boot_linaro_android_image failed to create the adb connection: %s"
                [e], Done)])%list)
  /\
  (is_ADBConnectError e = false ->
   is_Exception e = true ->
   outcome run = Raise (CriticalError "Failed to boot test image.")
   /\ history (final run)
      = (history st
         ++ [(attempt, Raised e);
             (Logging ERROR "boot_linaro_android_image failed: %s" [e], Done)])%list).
Proof.
  intros run attempt Hfault. subst run attempt. destruct st as [c h].
  cbn [history] in Hfault.
  split; [intros Hadb | intros Hadb Hexn];
    destruct boot_cmds_arg, wait_for_home_screen_activity, test_image_prompt;
    step; rewrite Hfault; step; rewrite Hadb; step; try rewrite Hexn; step;
    norm_history; split; reflexivity.
Qed.

(** An exception that is not of class [Exception] (a keyboard interrupt, an
    exit request) is no failure of the boot: it passes through the action
    untouched and unlogged. *)
Lemma android_boot_interrupted
    (options : list string) (boot_cmds_arg : option (list string)) (adb_check : bool)
    (wait_for_home_screen : bool) (wait_for_home_screen_activity : Py.value)
    (test_image_prompt : Py.value) (boot_uiautomator_jar : Py.value)
    (boot_uiautomator_commands : option (list string))
    (w : World) (st : Store Client) (cls : string) :
  let run :=
    cmd_boot_linaro_android_image_run options boot_cmds_arg adb_check
      wait_for_home_screen wait_for_home_screen_activity test_image_prompt
      boot_uiautomator_jar boot_uiautomator_commands w st in
  let attempt := BootLinaroAndroidImage adb_check in
  fault w (history st) attempt = Some (NonException cls) ->
  outcome run = Raise (NonException cls)
  /\ history (final run) = (history st ++ [(attempt, Raised (NonException cls))])%list.
Proof.
  intros run attempt Hfault. subst run attempt. destruct st as [c h].
  cbn [history] in Hfault.
  destruct boot_cmds_arg, wait_for_home_screen_activity, test_image_prompt;
    step; rewrite Hfault; step; split; reflexivity.
Qed.

(** ** Scoped access to the files of the device *)

(** C1, as the code has it.  Once the partition resolved to a mount point,
    the staging directory was made and the remote directory pulled into it
    (whatever the pull came back with), the scope runs the caller's body on
    the staging path.  When the body returns, the staging directory is pushed
    back to the very remote path the pull read from, and the scope returns the
    body's result if the push succeeded.  When the body raises, its exception
    leaves the scope as it is and nothing more is run. *)
Theorem adb_file_system_scope (config : Config)
    (partition directory mount_point : string) (wd : Py.value)
    (A : Type) (body : string -> Drv A) (w : World) (st st0 : Store Driver) :
  let host_dir := Py.fmt wd ++ "/mnt/" ++ directory in
  let target_dir := mount_point ++ "/" ++ directory in
  let mkdir := CheckCall ["mkdir"; "-p"; host_dir] in
  let pull :=
    RunCommand (adb_invocation config 600 ("pull " ++ target_dir ++ " " ++ host_dir))
      true in
  let push :=
    RunCommand (adb_invocation config 600 ("push " ++ host_dir ++ " " ++ target_dir))
      false in
  BaseDriver__get_partition_mount_point config partition w st = (Return mount_point, st) ->
  BaseDriver_working_dir config w st = (Return wd, st0) ->
  exit_status w (history st0) mkdir = 0 ->
  let h1 := (history st0 ++ [(mkdir, Status 0)])%list in
  let st1 := mkStore (self st0) (h1 ++ [(pull, Status (exit_status w h1 pull))])%list in
  let run :=
    with_contextmanager (BaseDriver_adb_file_system config partition directory) body
      w st in
  (forall a st2,
      body host_dir w st1 = (Return a, st2) ->
      let rc := exit_status w (history st2) push in
      run = (if rc =? 0 then Return a
             else Raise (CalledProcessError rc
                           (adb_invocation config 600
                              ("push " ++ host_dir ++ " " ++ target_dir))),
             mkStore (self st2) (history st2 ++ [(push, Status rc)])%list))
  /\
  (forall e st2, body host_dir w st1 = (Raise e, st2) -> run = (Raise e, st2)).
Proof.
  intros host_dir target_dir mkdir pull push Hmp Hwd Hmkdir h1 st1 run.
  subst run st1 h1 push pull mkdir target_dir host_dir.
  destruct st0 as [d0 h0]. cbn [history self] in *.
  unfold adb_invocation.
  cbv beta iota zeta delta [with_contextmanager BaseDriver_adb_file_system bind].
  rewrite Hmp. cbv beta iota. rewrite Hwd. step. rewrite Hmkdir.
  change (0 =? 0) with true. step.
  split.
  - intros a [d2 h2] Hbody. rewrite Hbody. step. case_status; reflexivity.
  - intros e st2 Hbody. rewrite Hbody. reflexivity.
Qed.

Lemma adb_file_system_scope_witness :
  let run :=
    with_contextmanager (BaseDriver_adb_file_system example_config "userdata" "local/tmp")
      writing_body world_ok staged in
  outcome run = Return tt
  /\ pushed_back example_config "/scratch/mnt/local/tmp" "/data/local/tmp"
       (history (final run)).
Proof.
  destruct (@adb_file_system_scope example_config "userdata" "local/tmp" "/data"
              (Some "/scratch") unit writing_body world_ok staged staged
              eq_refl eq_refl eq_refl) as [Hreturns _].
  cbv zeta. rewrite (Hreturns tt _ eq_refl).
  split; [reflexivity |].
  exists (Status 0). cbn. right. right. right. left. reflexivity.
Defined.

(** C1, refuted as stated.  A caller that raises inside the scope gets its
    own exception back, and the history, which has the pull, has no push of
    anything to anywhere. *)
Lemma adb_file_system_body_raises_no_push :
  let run :=
    with_contextmanager (BaseDriver_adb_file_system example_config "userdata" "local/tmp")
      failing_body world_ok staged in
  outcome run = Raise (OtherException "IOError" "No space left on device")
  /\ In (RunCommand
           (adb_invocation example_config 600
              "pull /data/local/tmp /scratch/mnt/local/tmp") true, Status 0)
       (history (final run))
  /\ forall host_dir target_dir,
       ~ pushed_back example_config host_dir target_dir (history (final run)).
Proof.
  cbv zeta. split; [reflexivity | split].
  - cbn. right. left. reflexivity.
  - intros host_dir target_dir [r H]. cbn in H.
    destruct H as [H | [H | [H | []]]]; discriminate H.
Qed.

(** ** The OS-image deploy *)

(** C2, as the code has it.  In a world where every command and every
    download succeeds, a deploy with a boot image and a system image and no
    userdata image returns.  The only commands it ran are the erase of the
    boot partition (on the boards that erase it) and the flash of the system
    partition with the downloaded system image: there is no flash of the boot
    partition and none of userdata.  The boot target is the downloaded boot
    image. *)
Theorem deploy_android_boot_and_system (config : Config) (cls : Board)
    (img1 img2 : string) (rootfstype bootloadertype target_type scratch_dir : Py.value)
    (w : World) (st : Store Driver) :
  commands_succeed w ->
  paths_succeed w ->
  let run :=
    deploy_android config cls (Some img1) (Some img2) None rootfstype bootloadertype
      target_type scratch_dir w st in
  exists boot_path system_path new,
    outcome run = Return tt
    /\ history (final run) = (history st ++ new)%list
    /\ downloaded img1 boot_path new
    /\ downloaded img2 system_path new
    /\ commands_run new
       = (erase_boot_commands config cls
          ++ [fastboot_invocation config 600 ("flash system " ++ system_path)])%list
    /\ __boot_image__ (self (final run)) = Some boot_path.
Proof.
  intros Hs Hp run. subst run. destruct st as [d h].
  unfold fastboot_invocation, downloaded.
  destruct cls; crank; norm_history;
    do 3 eexists; (split; [reflexivity |]); (split; [reflexivity |]);
    (split; [do 2 eexists; found |]); (split; [do 2 eexists; found |]);
    split; reflexivity.
Qed.

Lemma world_ok_commands_succeed : commands_succeed world_ok.
Proof. intros h c. reflexivity. Qed.

Lemma world_ok_paths_succeed : paths_succeed world_ok.
Proof. intros h c. destruct c; eexists; reflexivity. Qed.

Lemma world_ok_no_fault : no_fault world_ok.
Proof. intros h c. reflexivity. Qed.

Lemma deploy_android_boot_and_system_witness :
  exists boot_path system_path new,
    outcome scenario_deploy = Return tt
    /\ history (final scenario_deploy) = (history fresh ++ new)%list
    /\ downloaded "img1" boot_path new
    /\ downloaded "img2" system_path new
    /\ commands_run new
       = (erase_boot_commands example_config fastboot
          ++ [fastboot_invocation example_config 600 ("flash system " ++ system_path)])%list
    /\ __boot_image__ (self (final scenario_deploy)) = Some boot_path.
Proof.
  exact (@deploy_android_boot_and_system example_config fastboot "img1" "img2"
           None None (Some "android") (Some "/scratch") world_ok fresh
           world_ok_commands_succeed world_ok_paths_succeed).
Defined.

(** C2, refuted as stated.  The deploy of the scenario returns, and none of
    the commands it ran flashes the boot partition, with whatever image. *)
Lemma scenario_deploy_never_flashes_boot :
  outcome scenario_deploy = Return tt
  /\ forall image,
       ~ In (fastboot_invocation example_config 600 ("flash boot " ++ image))
            (commands_run (history (final scenario_deploy))).
Proof.
  split; [reflexivity |].
  intros image H. cbn in H.
  destruct H as [H | [H | []]]; discriminate H.
Qed.

(** ** The kernel deploy and the boot that follows *)

(** C7.  On a board that deploys kernels, with a load address configured and
    in a world where everything succeeds, a deploy with a kernel, a ramdisk
    and modules returns after it extracted the downloaded ramdisk, injected
    the downloaded modules into the extracted tree and repacked that tree,
    these three in a row.  The boot that follows runs one command: the
    flashing tool's [boot] with the boot arguments, the configured load
    address, the downloaded kernel and the ramdisk the repacking returned. *)
Theorem deploy_kernel_with_modules_then_boot (config : Config) (cls : Board)
    (kernel ramdisk modules : string)
    (dtb rootfs nfsrootfs bootloader firmware bl1 bl2 bl31 rootfstype bootloadertype
       target_type scratch_dir boot_cmds : Py.value)
    (w : World) (st : Store Driver) :
  In cls kernel_deploying_boards ->
  Py.truthy (fastboot_kernel_load_addr config) = true ->
  commands_succeed w ->
  paths_succeed w ->
  no_fault w ->
  let deploy :=
    deploy_linaro_kernel config cls (Some kernel) (Some ramdisk) dtb (Some modules)
      rootfs nfsrootfs bootloader firmware bl1 bl2 bl31 rootfstype bootloadertype
      target_type scratch_dir w st in
  exists kernel_path ramdisk_path modules_path ramdisk_dir repacked tmp1 tmp2 new,
    outcome deploy = Return tt
    /\ history (final deploy) = (history st ++ new)%list
    /\ downloaded kernel kernel_path new
    /\ downloaded ramdisk ramdisk_path new
    /\ downloaded modules modules_path new
    /\ consecutive
         [(ExtractRamdisk (Some ramdisk_path) tmp1 false, Path ramdisk_dir);
          (ExtractModules modules_path ramdisk_dir, Done);
          (CreateRamdisk ramdisk_dir tmp2, Path repacked)]
         new
    /\ boot config cls boot_cmds w (final deploy)
       = (Return tt,
          mkStore (self (final deploy))
            (history (final deploy)
             ++ [(RunCommand
                    (fastboot_invocation config 600
                       (kernel_boot_args config boot_cmds kernel_path repacked))
                    false, Status 0)])%list).
Proof.
  intros Hcls Hload Hs Hp Hf deploy. subst deploy. destruct st as [d h].
  unfold fastboot_invocation, kernel_boot_args, downloaded, consecutive.
  destruct Hcls as [<- | [<- | []]]; destruct rootfs; crank; norm_history;
    do 8 eexists; (split; [reflexivity |]); (split; [reflexivity |]);
    (split; [do 2 eexists; found |]); (split; [do 2 eexists; found |]);
    (split; [do 2 eexists; found |]);
    (split;
     [match goal with
      | |- exists before after, ?l = _ =>
          let b := upto_extraction l in exists b; eexists; reflexivity
      end
     | norm_history; reflexivity]).
Qed.

Lemma deploy_kernel_with_modules_then_boot_witness :
  exists kernel_path ramdisk_path modules_path ramdisk_dir repacked tmp1 tmp2 new,
    outcome scenario_kernel_deploy = Return tt
    /\ history (final scenario_kernel_deploy) = (history fresh ++ new)%list
    /\ downloaded "zImage" kernel_path new
    /\ downloaded "ramdisk.cpio.gz" ramdisk_path new
    /\ downloaded "modules.tar.gz" modules_path new
    /\ consecutive
         [(ExtractRamdisk (Some ramdisk_path) tmp1 false, Path ramdisk_dir);
          (ExtractModules modules_path ramdisk_dir, Done);
          (CreateRamdisk ramdisk_dir tmp2, Path repacked)]
         new
    /\ boot example_config fastboot_serial (Some "console=ttyS0") world_ok
         (final scenario_kernel_deploy)
       = (Return tt,
          mkStore (self (final scenario_kernel_deploy))
            (history (final scenario_kernel_deploy)
             ++ [(RunCommand
                    (fastboot_invocation example_config 600
                       (kernel_boot_args example_config (Some "console=ttyS0")
                          kernel_path repacked))
                    false, Status 0)])%list).
Proof.
  exact (@deploy_kernel_with_modules_then_boot example_config fastboot_serial
           "zImage" "ramdisk.cpio.gz" "modules.tar.gz"
           None None None None None None None None None None (Some "oe")
           (Some "/scratch") (Some "console=ttyS0") world_ok fresh
           (or_intror (or_introl eq_refl)) eq_refl
           world_ok_commands_succeed world_ok_paths_succeed world_ok_no_fault).
Defined.

(** ** The kernel attribute over the life of a driver *)

Section KeepsKernel.

Context {A B : Type}.

Lemma keeps_ret (a : A) : keeps_kernel (ret a : Drv A).
Proof. intros w st. reflexivity. Qed.

Lemma keeps_raise (e : Exn) : keeps_kernel (raise e : Drv A).
Proof. intros w st. reflexivity. Qed.

Lemma keeps_gets (f : Driver -> A) : keeps_kernel (gets f).
Proof. intros w st. reflexivity. Qed.

Lemma keeps_bind (m : Drv A) (k : A -> Drv B) :
  keeps_kernel m -> (forall a, keeps_kernel (k a)) -> keeps_kernel (bind m k).
Proof.
  intros Hm Hk w st. unfold bind, final. specialize (Hm w st). unfold final in Hm.
  destruct (m w st) as [[a | e] st']; cbn [snd] in *.
  - rewrite <- Hm. apply Hk.
  - exact Hm.
Qed.

Lemma keeps_try_except (body : Drv A) (clauses : list (Except Driver A)) :
  keeps_kernel body ->
  Forall (fun clause => forall e, keeps_kernel (snd clause e)) clauses ->
  keeps_kernel (try_except body clauses).
Proof.
  intros Hbody Hclauses w st. unfold try_except, final.
  specialize (Hbody w st). unfold final in Hbody.
  destruct (body w st) as [[a | e] st']; cbn [snd] in *; [exact Hbody |].
  destruct (find (fun clause => fst clause e) clauses) as [clause |] eqn:E;
    [| exact Hbody].
  apply find_some in E. destruct E as [E _].
  rewrite Forall_forall in Hclauses. rewrite <- Hbody. apply (Hclauses clause E).
Qed.

End KeepsKernel.

Lemma keeps_modify (f : Driver -> Driver) :
  (forall d, _kernel (f d) = _kernel d) -> keeps_kernel (modify f).
Proof. intros H w st. apply H. Qed.

Lemma keeps_call_done (c : Call) : keeps_kernel (call_done c).
Proof. intros w st. reflexivity. Qed.

Lemma keeps_call_status (c : Call) : keeps_kernel (call_status c).
Proof. intros w st. reflexivity. Qed.

Lemma keeps_call_path (c : Call) : keeps_kernel (call_path c).
Proof. intros w st. unfold call_path. destruct (path_result w (history st) c); reflexivity. Qed.

Lemma keeps_call_proc (c : Call) : keeps_kernel (call_proc c).
Proof. intros w st. unfold call_proc. destruct (proc_result w (history st) c); reflexivity. Qed.

Lemma keeps_call_unit (c : Call) : keeps_kernel (call_unit c).
Proof. intros w st. unfold call_unit. destruct (fault w (history st) c); reflexivity. Qed.

Create HintDb keeps.
#[local] Hint Resolve keeps_call_done keeps_call_status keeps_call_path keeps_call_proc
  keeps_call_unit : keeps.

Ltac head_of t :=
  lazymatch t with
  | ?f _ => head_of f
  | _ => t
  end.

(** Goes through a computation built from the combinators, unfolding the
    driver's methods on the way. *)
Ltac keeps :=
  repeat first
    [ apply keeps_ret
    | apply keeps_raise
    | apply keeps_gets
    | solve [auto with keeps]
    | apply keeps_modify; intros []; reflexivity
    | apply keeps_bind; [| intros ?]
    | apply keeps_try_except;
      [| repeat apply Forall_cons;
         [intros ?; unfold except; cbn [snd] .. | apply Forall_nil]]
    | match goal with
      | |- keeps_kernel (match ?x with _ => _ end) => destruct x
      | |- keeps_kernel ?m => let f := head_of m in progress unfold f
      end ].

Lemma perform_keeps_kernel (config : Config) (cls : Board) (op : Op) :
  In cls kernel_rejecting_boards -> keeps_kernel (perform config cls op).
Proof.
  intros Hcls. unfold kernel_rejecting_boards in Hcls. cbn [In] in Hcls.
  destruct Hcls as [<- | [<- | [<- | [<- | [<- | []]]]]];
    destruct op as [ | | | | | | | | | | | | [] | ]; unfold perform; keeps.
Qed.

(** On a board that rejects kernel deployment, no sequence of calls ever sets
    [self._kernel]. *)
Lemma kernel_never_set (config : Config) (w : World) (cls : Board) (st : Store Driver) :
  reachable config w cls st ->
  In cls kernel_rejecting_boards ->
  _kernel (self st) = None.
Proof.
  intros Hreach Hcls. induction Hreach as [h | st op Hreach IH].
  - reflexivity.
  - rewrite (perform_keeps_kernel config op Hcls w st). exact IH.
Qed.

(** ** Booting a kernel without a load address *)

(** C5.  Take a driver of any class, in any state its methods can bring it
    to, that holds a kernel artifact, on a board with no kernel load address
    configured.  Its [boot] raises the fatal [CriticalError] and leaves the
    driver and the history as they were: nothing was handed to the flashing
    tool.  The error names the missing load address unless the deploy itself
    never completed, in which case it names that. *)
Theorem boot_without_load_address (config : Config) (w : World) (cls : Board)
    (st : Store Driver) (boot_cmds : Py.value) :
  reachable config w cls st ->
  _kernel (self st) <> None ->
  Py.truthy (fastboot_kernel_load_addr config) = false ->
  boot config cls boot_cmds w st
  = (Raise (CriticalError
              match __boot_image__ (self st) with
              | Some _ => "Kernel load address not defined!"
              | None => "Deploy action must be run first"
              end),
     st).
Proof.
  intros Hreach Hkernel Hload.
  assert (Hbase : ~ In cls kernel_rejecting_boards).
  { intros Hcls. apply Hkernel. exact (kernel_never_set Hreach Hcls). }
  clear Hreach. destruct st as [d h]. cbn [self] in *.
  destruct cls; try (exfalso; apply Hbase; cbn; tauto);
    (destruct (_kernel d) as [k |] eqn:Ek; [| contradiction]);
    step; destruct (__boot_image__ d); step; try reflexivity;
    rewrite Ek; step; destruct (_ramdisk d); step; rewrite Hload; reflexivity.
Qed.

Lemma boot_without_load_address_witness :
  boot config_without_load_addr fastboot_serial None world_ok after_kernel_only_deploy
  = (Raise (CriticalError "Kernel load address not defined!"), after_kernel_only_deploy).
Proof.
  exact (@boot_without_load_address config_without_load_addr world_ok fastboot_serial
           after_kernel_only_deploy None
           (reachable_step kernel_only_deploy
              (reachable_init config_without_load_addr world_ok fastboot_serial []))
           ltac:(discriminate) eq_refl).
Defined.

Lemma FastBoot_enter_escalation_witness :
  outcome (FastBoot_enter example_config world_commands_fail fresh) = Return tt
  /\ commands_run (history (final (FastBoot_enter example_config world_commands_fail fresh)))
     = [adb_invocation example_config 600 "reboot bootloader"; "pduclient --reset"].
Proof.
  destruct (@FastBoot_enter_escalation example_config world_commands_fail fresh
              ltac:(discriminate)) as [Hhard _].
  rewrite (Hhard eq_refl). split; reflexivity.
Defined.

Lemma android_boot_failure_witness :
  outcome (cmd_boot_linaro_android_image_run [] None false true None None None None
             world_boot_times_out client0)
  = Raise (CriticalError "Failed to boot test image.").
Proof.
  destruct (@android_boot_failure [] None false true None None None None
              world_boot_times_out client0 boot_timeout eq_refl) as [_ Hother].
  exact (proj1 (Hother eq_refl eq_refl)).
Defined.

(** * Further properties of the drivers and of the boot actions *)

(** ** The liveness probe *)

(** X1.  [in_fastboot] never raises.  It logs, sleeps ten seconds, probes the
    flashing tool under a two-second kill-timeout, and answers whether the
    probe exited with status 0; only a positive answer is followed by the
    debug line. *)
Theorem in_fastboot_answers_the_probe (config : Config) (w : World) (st : Store Driver) :
  let probe := RunCommand (fastboot_invocation config 2 "getvar all") false in
  let h1 := (history st
             ++ [(Logging INFO "Waiting for 10 seconds for connection to settle" [], Done);
                 (Sleep 10, Done)])%list in
  let rc := exit_status w h1 probe in
  FastBoot_on config w st
  = (Return (rc =? 0), mkStore (self st) (h1 ++ [(probe, Status rc)])%list)
  /\ BaseDriver_in_fastboot config w st
     = (Return (rc =? 0),
        mkStore (self st)
          (h1 ++ (probe, Status rc)
              :: (if rc =? 0
                  then [(Logging DEBUG
                           "Device is in fastboot mode - no need to hard reset" [], Done)]
                  else []))%list).
Proof.
  intros probe h1 rc. subst rc h1 probe. destruct st as [d h].
  unfold fastboot_invocation. step. norm_history.
  split; case_status; step; norm_history; reflexivity.
Qed.

(** ** Booting a flashed image *)

(** X2.  [FastBoot.boot] reboots the bootloader, sleeps ten seconds and then
    boots the image.  When the reboot fails, its failure is raised at once:
    there is no sleep and the boot command is never issued. *)
Theorem FastBoot_boot_sequence (config : Config) (image : Py.value) (w : World)
    (st : Store Driver) :
  let reboot := RunCommand (fastboot_invocation config 600 "reboot") false in
  let rc1 := exit_status w (history st) reboot in
  let h2 := (history st ++ [(reboot, Status rc1); (Sleep 10, Done)])%list in
  let boot_image :=
    RunCommand (fastboot_invocation config 600 ("boot " ++ Py.fmt image)) false in
  let rc2 := exit_status w h2 boot_image in
  FastBoot_boot config image w st
  = if rc1 =? 0
    then (if rc2 =? 0 then Return tt
          else Raise (CalledProcessError rc2
                        (fastboot_invocation config 600 ("boot " ++ Py.fmt image))),
          mkStore (self st) (h2 ++ [(boot_image, Status rc2)])%list)
    else (Raise (CalledProcessError rc1 (fastboot_invocation config 600 "reboot")),
          mkStore (self st) (history st ++ [(reboot, Status rc1)])%list).
Proof.
  intros reboot rc1 h2 boot_image rc2. subst rc2 boot_image h2 rc1 reboot.
  destruct st as [d h]. unfold fastboot_invocation. step.
  case_status; step; norm_history; [case_status |]; step; norm_history; reflexivity.
Qed.

(** ** The two ways to boot *)

(** X3.  On a driver that runs the base class's [boot] and has a boot target,
    the kernel artifact alone decides the way.  Without a kernel, [boot] is
    the partition boot of the boot target.  With a kernel and a load address,
    it is one single command, the tool's [boot] with the boot arguments, the
    load address, the kernel and, if there is one, the ramdisk: the
    bootloader is not rebooted and the boot target is not used. *)
Theorem BaseDriver_boot_routes (config : Config) (cls : Board) (boot_cmds : Py.value)
    (image : string) (w : World) (st : Store Driver) :
  In cls boot_inheriting_boards ->
  __boot_image__ (self st) = Some image ->
  (_kernel (self st) = None ->
   boot config cls boot_cmds w st = FastBoot_boot config (Some image) w st)
  /\
  (forall kernel,
      _kernel (self st) = Some kernel ->
      Py.truthy (fastboot_kernel_load_addr config) = true ->
      let args :=
        match _ramdisk (self st) with
        | Some ramdisk =>
            "boot -c " ++ Py.dquote ++ Py.fmt boot_cmds ++ Py.dquote ++ " -b "
            ++ Py.fmt (fastboot_kernel_load_addr config) ++ " " ++ kernel
            ++ " " ++ ramdisk
        | None =>
            "boot -c " ++ Py.dquote ++ Py.fmt boot_cmds ++ Py.dquote ++ " -b "
            ++ Py.fmt (fastboot_kernel_load_addr config) ++ " " ++ kernel
        end in
      let command := fastboot_invocation config 600 args in
      let rc := exit_status w (history st) (RunCommand command false) in
      boot config cls boot_cmds w st
      = (if rc =? 0 then Return tt else Raise (CalledProcessError rc command),
         mkStore (self st) (history st ++ [(RunCommand command false, Status rc)])%list)).
Proof.
  intros Hcls Himage. destruct st as [d h]. cbn [self history] in *.
  unfold boot_inheriting_boards in Hcls. cbn [In] in Hcls.
  split.
  - intros Hk.
    destruct Hcls as [<- | [<- | [<- | []]]]; step; rewrite Himage; step;
      rewrite Hk; reflexivity.
  - intros kernel Hk Hload. unfold fastboot_invocation.
    destruct Hcls as [<- | [<- | [<- | []]]]; step; rewrite Himage; step;
      rewrite Hk; step; destruct (_ramdisk d); step; rewrite Hload; step;
      case_status; reflexivity.
Qed.

Lemma BaseDriver_boot_routes_witness :
  boot example_config fastboot None world_ok after_scenario_deploy
  = FastBoot_boot example_config (Some "/scratch/img1") world_ok after_scenario_deploy
  /\
  boot example_config fastboot_serial (Some "console=ttyS0") world_ok
    after_scenario_kernel_deploy
  = (Return tt,
     mkStore (self after_scenario_kernel_deploy)
       (history after_scenario_kernel_deploy
        ++ [(RunCommand
               (fastboot_invocation example_config 600
                  (kernel_boot_args example_config (Some "console=ttyS0")
                     "/scratch/zImage" "None/ramdisk.repacked"))
               false, Status 0)])%list).
Proof.
  split.
  - exact (proj1 (@BaseDriver_boot_routes example_config fastboot None "/scratch/img1"
                    world_ok after_scenario_deploy
                    (or_intror (or_introl eq_refl)) eq_refl)
             eq_refl).
  - exact (proj2 (@BaseDriver_boot_routes example_config fastboot_serial
                    (Some "console=ttyS0") "kernel" world_ok
                    after_scenario_kernel_deploy
                    (or_intror (or_intror (or_introl eq_refl))) eq_refl)
             "/scratch/zImage" eq_refl eq_refl).
Defined.

(** ** The working directory *)

(** X4.  Once the [working_dir] property has returned a directory, reading it
    again returns the same directory and calls nothing: a shared working
    directory is made at most once. *)
Theorem working_dir_is_cached (config : Config) (w : World) (st st1 : Store Driver)
    (dir : Py.value) :
  BaseDriver_working_dir config w st = (Return dir, st1) ->
  BaseDriver_working_dir config w st1 = (Return dir, st1).
Proof.
  destruct st as [d h]. unfold BaseDriver_working_dir.
  destruct (shared_working_directory config) as [shared |];
    [destruct (Py.strip shared =? EmptyString)%string |].
  - step. intros H. injection H as <- <-. reflexivity.
  - step. destruct (_working_dir d) as [made |] eqn:E; step.
    + intros H. injection H as <- <-. step. rewrite E. step. rewrite E. reflexivity.
    + destruct (path_result w h (Mkdtemp shared)) as [e | made]; step;
        intros H; [discriminate H |]. injection H as <- <-. reflexivity.
  - step. intros H. injection H as <- <-. reflexivity.
Qed.

Lemma working_dir_is_cached_witness :
  BaseDriver_working_dir config_without_load_addr world_ok
    (final (BaseDriver_working_dir config_without_load_addr world_ok fresh))
  = (Return (Some "/var/lib/lava/shared/tmp0"),
     final (BaseDriver_working_dir config_without_load_addr world_ok fresh)).
Proof.
  exact (@working_dir_is_cached config_without_load_addr world_ok fresh _ _ eq_refl).
Defined.

(** ** Mount points *)

(** X5.  The system partition resolves to [/system]; the data partition
    resolves to [/data], unless the configuration gives both partitions the
    same name, in which case [/system] wins.  Any other partition is a
    [KeyError], raised before anything was called. *)
Theorem partition_mount_point (config : Config) (partition : string) (w : World)
    (st : Store Driver) :
  BaseDriver__get_partition_mount_point config partition w st
  = (if (partition =? sys_part_android_org config)%string then Return "/system"
     else if (partition =? data_part_android_org config)%string then Return "/data"
     else Raise (KeyError partition),
     st).
Proof.
  unfold BaseDriver__get_partition_mount_point, Py.dict_literal, Py.dict_set.
  cbn [fold_left filter fst snd Py.dict_get].
  rewrite (String.eqb_sym partition (sys_part_android_org config)).
  rewrite (String.eqb_sym partition (data_part_android_org config)).
  destruct (String.eqb_spec (sys_part_android_org config) partition) as [Hs | Hs];
    [reflexivity |].
  destruct (String.eqb_spec (data_part_android_org config) (sys_part_android_org config))
    as [Hds | Hds]; cbn [negb Py.dict_get].
  - destruct (String.eqb_spec (data_part_android_org config) partition) as [Hd | Hd];
      [congruence | reflexivity].
  - destruct (data_part_android_org config =? partition)%string; reflexivity.
Qed.

(** ** The bridge *)

(** X6.  A spawned bridge session goes to [context.spawn] with a timeout of 60
    and nothing else: the caller's timeout and failure tolerance play no part
    and no kill-timeout wraps it.  A synchronous bridge call runs one command
    under the kill-timeout and returns [None]; it raises only when the
    command failed and the caller did not ask to ignore that. *)
Theorem adb_spawn_or_run (config : Config) (args : string)
    (ignore_failure : option bool) (timeout : option Z) (w : World) (st : Store Driver) :
  let session := Spawn (adb_command config ++ " " ++ args) 60 in
  let command := adb_invocation config (Py.default 600 timeout) args in
  let tolerant := Py.default false ignore_failure in
  let rc := exit_status w (history st) (RunCommand command tolerant) in
  BaseDriver_adb config args ignore_failure (Some true) timeout w st
  = match proc_result w (history st) session with
    | inr p => (Return (Some p), mkStore (self st) (history st ++ [(session, Handle p)])%list)
    | inl e => (Raise e, mkStore (self st) (history st ++ [(session, Raised e)])%list)
    end
  /\ Forall
       (fun spawn =>
          BaseDriver_adb config args ignore_failure spawn timeout w st
          = (if tolerant || (rc =? 0) then Return None
             else Raise (CalledProcessError rc command),
             mkStore (self st)
               (history st ++ [(RunCommand command tolerant, Status rc)])%list))
       [None; Some false].
Proof.
  intros session command tolerant rc. subst rc tolerant command session.
  destruct st as [d h]. unfold adb_invocation. split.
  - step. destruct (proc_result w h _); reflexivity.
  - repeat apply Forall_cons; try apply Forall_nil;
      destruct ignore_failure as [[|] |]; step; try reflexivity;
      case_status; reflexivity.
Qed.

(** ** Connecting *)

(** X7.  On the bridge-only boards [connect] refuses any target type but
    [android] with a fatal error, before the bridge is touched.  For an
    android target it waits for the device under the kill-timeout and, only
    if that succeeded, spawns the shell session it returns. *)
Theorem bridge_connect :
  Forall
    (fun cls =>
       forall config w st,
         let wait :=
           RunCommand (adb_invocation config 600 "wait-for-device") false in
         let rc := exit_status w (history st) wait in
         let h1 := (history st ++ [(wait, Status rc)])%list in
         let shell := Spawn (adb_command config ++ " shell") 60 in
         connect config cls w st
         = if is_android (target_type (self st)) then
             if rc =? 0 then
               match proc_result w h1 shell with
               | inr p => (Return (Some p),
                           mkStore (self st) (h1 ++ [(shell, Handle p)])%list)
               | inl e => (Raise e, mkStore (self st) (h1 ++ [(shell, Raised e)])%list)
               end
             else (Raise (CalledProcessError rc
                            (adb_invocation config 600 "wait-for-device")),
                   mkStore (self st) h1)
           else (Raise (CriticalError "This device only supports Android!"), st))
    [fastboot; nexus10].
Proof.
  repeat apply Forall_cons; try apply Forall_nil;
    intros config w [d h]; unfold adb_invocation; step;
    (destruct (is_android (target_type d)); [| reflexivity]);
    step; case_status; step; try reflexivity;
    destruct (proc_result w _ _); reflexivity.
Qed.

(** X8.  On the serial boards [connect] needs a connection command: without
    one it raises the fatal error before anything is called.  With one it
    opens the serial session first.  [pxa1928dkb] returns it at once; the
    others wait for the bridge when the target is android, and if that wait
    fails its failure is raised with the serial session already open. *)
Theorem serial_connect :
  Forall
    (fun cls =>
       forall config w st,
         let wait :=
           RunCommand (adb_invocation config 600 "wait-for-device") false in
         connect config cls w st
         = if Py.truthy (connection_command config) then
             match proc_result w (history st) ConnectToSerial with
             | inl e =>
                 (Raise e,
                  mkStore (self st) (history st ++ [(ConnectToSerial, Raised e)])%list)
             | inr p =>
                 let h1 := (history st ++ [(ConnectToSerial, Handle p)])%list in
                 let rc := exit_status w h1 wait in
                 match cls with
                 | pxa1928dkb => (Return (Some p), mkStore (self st) h1)
                 | _ =>
                     if is_android (target_type (self st)) then
                       (if rc =? 0 then Return (Some p)
                        else Raise (CalledProcessError rc
                                      (adb_invocation config 600 "wait-for-device")),
                        mkStore (self st) (h1 ++ [(wait, Status rc)])%list)
                     else (Return (Some p), mkStore (self st) h1)
                 end
             end
           else (Raise (CriticalError "The connection_command is not defined!"), st))
    [fastboot_serial; capri; k3v2; pxa1928dkb].
Proof.
  repeat apply Forall_cons; try apply Forall_nil;
    intros config w [d h]; unfold adb_invocation; step;
    (destruct (Py.truthy (connection_command config)); [| reflexivity]);
    step; (destruct (proc_result w h ConnectToSerial); [reflexivity |]);
    step; try reflexivity;
    (destruct (is_android (target_type d)); [| reflexivity]);
    step; case_status; reflexivity.
Qed.

(** ** Entering flash mode *)

(** X9.  On every board that can enter flash mode, [enter_fastboot] returns
    whatever the world does, and leaves the driver as it was.  When the soft
    reset succeeds it is the only command run.  [k3v2] then sleeps ten
    seconds, in every case; the base class has no way to enter flash mode and
    raises [NotImplementedError]. *)
Theorem enter_fastboot_outcomes (config : Config) (w : World) (st : Store Driver) :
  let soft := RunCommand (adb_invocation config 600 (soft_boot_cmd config)) false in
  enter_fastboot config BaseDriver w st = (Raise (NotImplementedError "enter_fastboot"), st)
  /\ Forall
       (fun cls =>
          outcome (enter_fastboot config cls w st) = Return tt
          /\ self (final (enter_fastboot config cls w st)) = self st
          /\ history (final (enter_fastboot config cls w st))
             = (history (final (FastBoot_enter config w st))
                ++ match cls with
                   | k3v2 => [(Sleep 10, Done)]
                   | _ => []
                   end)%list)
       [fastboot; nexus10; fastboot_serial; capri; pxa1928dkb; k3v2]
  /\ (exit_status w (history st) soft = 0 ->
      FastBoot_enter config w st
      = (Return tt, mkStore (self st) (history st ++ [(soft, Status 0)])%list)).
Proof.
  intros soft. subst soft. destruct st as [d h]. unfold adb_invocation.
  split; [reflexivity | split].
  - repeat apply Forall_cons; try apply Forall_nil; step;
      case_status; step;
      try (destruct (Py.truthy (hard_reset_command config)); step);
      rewrite ?app_nil_r; repeat split; reflexivity.
  - cbn [history self]. intros H. step. rewrite H. reflexivity.
Qed.

Lemma enter_fastboot_outcomes_witness :
  FastBoot_enter example_config world_ok fresh
  = (Return tt,
     mkStore (self fresh)
       (history fresh
        ++ [(RunCommand (adb_invocation example_config 600 "reboot bootloader") false,
             Status 0)])%list).
Proof.
  exact (proj2 (proj2 (@enter_fastboot_outcomes example_config world_ok fresh)) eq_refl).
Defined.

(** ** Kernel deploys *)

(** X10.  A kernel deploy without a kernel raises the fatal error before
    anything is downloaded or flashed; the target type and the scratch
    directory are assigned all the same. *)
Theorem kernel_deploy_without_kernel :
  Forall
    (fun cls =>
       forall config ramdisk dtb modules rootfs nfsrootfs bootloader firmware
              bl1 bl2 bl31 rootfstype bootloadertype target_type scratch_dir w st,
         deploy_linaro_kernel config cls None ramdisk dtb modules rootfs nfsrootfs
           bootloader firmware bl1 bl2 bl31 rootfstype bootloadertype target_type
           scratch_dir w st
         = (Raise (CriticalError "A kernel image is required!"),
            mkStore (after_deploy_preamble target_type scratch_dir (self st))
              (history st)))
    kernel_deploying_boards.
Proof.
  unfold kernel_deploying_boards.
  repeat apply Forall_cons; try apply Forall_nil; intros; destruct st; reflexivity.
Qed.

(** X11.  In a world where every command and every download succeeds, a
    kernel deploy without modules returns with the downloaded kernel as the
    kernel artifact and [kernel] as the boot target.  A ramdisk, if given, is
    downloaded and kept as it is, and no ramdisk tool is called; if none is
    given, the ramdisk attribute keeps whatever it held.  A root file system,
    if given, is downloaded and flashed to the configured rootfs partition,
    the only command of the deploy, and the default boot commands become the
    rootfs profile; if none is given, no command runs and the profile stays. *)
Theorem kernel_deploy_without_modules (config : Config) (cls : Board) (kernel : string)
    (ramdisk rootfs : Py.value)
    (dtb nfsrootfs bootloader firmware bl1 bl2 bl31 rootfstype bootloadertype
       target_type scratch_dir : Py.value)
    (w : World) (st : Store Driver) :
  In cls kernel_deploying_boards ->
  commands_succeed w ->
  paths_succeed w ->
  let run :=
    deploy_linaro_kernel config cls (Some kernel) ramdisk dtb None rootfs nfsrootfs
      bootloader firmware bl1 bl2 bl31 rootfstype bootloadertype target_type
      scratch_dir w st in
  exists kernel_path new commands,
    outcome run = Return tt
    /\ history (final run) = (history st ++ new)%list
    /\ downloaded kernel kernel_path new
    /\ _kernel (self (final run)) = Some kernel_path
    /\ match ramdisk with
       | Some url =>
           exists path, downloaded url path new /\ _ramdisk (self (final run)) = Some path
       | None => _ramdisk (self (final run)) = _ramdisk (self st)
       end
    /\ Forall (fun cr => is_ramdisk_tool (fst cr) = false) new
    /\ commands_run new = commands
    /\ flashed_if_given config (Py.fmt (rootfs_partition config)) rootfs new commands
    /\ _default_boot_cmds (self (final run))
       = match rootfs with
         | Some _ => "boot_cmds_rootfs"
         | None => _default_boot_cmds (self st)
         end
    /\ __boot_image__ (self (final run)) = Some "kernel".
Proof.
  intros Hcls Hs Hp run. subst run. destruct st as [d h].
  unfold flashed_if_given, flash_command, fastboot_invocation, downloaded.
  match goal with
  | |- context [outcome ?x] => remember x as r eqn:Er
  end.
  revert Er.
  destruct Hcls as [<- | [<- | []]]; destruct ramdisk, rootfs; crank; norm_history;
    intros ->; cbn [outcome final fst snd self history _kernel _ramdisk
                      _default_boot_cmds __boot_image__];
    do 3 eexists; (split; [reflexivity |]); (split; [reflexivity |]);
    (split; [do 2 eexists; found |]); (split; [reflexivity |]);
    (split; [first [reflexivity | eexists; split; [do 2 eexists; found | reflexivity]] |]);
    (split; [repeat constructor |]); (split; [reflexivity |]);
    (split; [first [reflexivity
                   | eexists; split; [do 2 eexists; found | reflexivity]] |]);
    split; reflexivity.
Qed.

Lemma kernel_deploy_without_modules_witness :
  exists kernel_path new commands,
    outcome scenario_rootfs_deploy = Return tt
    /\ history (final scenario_rootfs_deploy) = (history fresh ++ new)%list
    /\ downloaded "zImage" kernel_path new
    /\ _kernel (self (final scenario_rootfs_deploy)) = Some kernel_path
    /\ _ramdisk (self (final scenario_rootfs_deploy)) = _ramdisk (self fresh)
    /\ Forall (fun cr => is_ramdisk_tool (fst cr) = false) new
    /\ commands_run new = commands
    /\ flashed_if_given example_config "userdata" (Some "rootfs.img") new commands
    /\ _default_boot_cmds (self (final scenario_rootfs_deploy)) = "boot_cmds_rootfs"
    /\ __boot_image__ (self (final scenario_rootfs_deploy)) = Some "kernel".
Proof.
  exact (@kernel_deploy_without_modules example_config BaseDriver "zImage" None
           (Some "rootfs.img") None None None None None None None None None
           (Some "oe") (Some "/scratch") world_ok fresh
           (or_introl eq_refl) world_ok_commands_succeed world_ok_paths_succeed).
Defined.

(** ** OS-image deploys *)

(** [erase_boot] is the erase of the boot partition or nothing. *)
Lemma erase_boot_cases (config : Config) (cls : Board) :
  (erase_boot config cls = BaseDriver_erase_boot config
   /\ erase_boot_commands config cls = [fastboot_invocation config 600 "erase boot"])
  \/ (erase_boot config cls = ret tt /\ erase_boot_commands config cls = []).
Proof. destruct cls; auto. Qed.

(** X12.  In a world where every command and every download succeeds, an
    OS-image deploy with a boot image returns with the downloaded boot image
    as the boot target.  The commands it ran are, in this order: the erase of
    the boot partition on the boards that erase it, the flash of the system
    partition if a system image was given, and the flash of the userdata
    partition if a userdata image was given, each flash with what was
    downloaded for it. *)
Theorem deploy_android_flashes (config : Config) (cls : Board) (boot_url : string)
    (system userdata rootfstype bootloadertype target_type scratch_dir : Py.value)
    (w : World) (st : Store Driver) :
  commands_succeed w ->
  paths_succeed w ->
  let run :=
    deploy_android config cls (Some boot_url) system userdata rootfstype bootloadertype
      target_type scratch_dir w st in
  exists boot_path new system_commands userdata_commands,
    outcome run = Return tt
    /\ history (final run) = (history st ++ new)%list
    /\ downloaded boot_url boot_path new
    /\ flashed_if_given config "system" system new system_commands
    /\ flashed_if_given config "userdata" userdata new userdata_commands
    /\ commands_run new
       = (erase_boot_commands config cls ++ system_commands ++ userdata_commands)%list
    /\ __boot_image__ (self (final run)) = Some boot_path.
Proof.
  intros Hs Hp run. subst run. destruct st as [d h].
  unfold flashed_if_given, flash_command, fastboot_invocation, downloaded.
  match goal with
  | |- context [outcome ?x] => remember x as r eqn:Er
  end.
  revert Er.
  unfold deploy_android, BaseDriver_deploy_android.
  destruct (erase_boot_cases config cls) as [[-> ->] | [-> ->]];
    destruct system, userdata; crank; norm_history;
    intros ->; cbn [outcome final fst snd self history __boot_image__];
    do 4 eexists; (split; [reflexivity |]); (split; [reflexivity |]);
    (split; [do 2 eexists; found |]);
    (split; [first [reflexivity
                   | eexists; split; [do 2 eexists; found | reflexivity]] |]);
    (split; [first [reflexivity
                   | eexists; split; [do 2 eexists; found | reflexivity]] |]);
    split; reflexivity.
Qed.


Lemma deploy_android_flashes_witness :
  exists boot_path new system_commands userdata_commands,
    outcome scenario_full_deploy = Return tt
    /\ history (final scenario_full_deploy) = (history fresh ++ new)%list
    /\ downloaded "boot.img" boot_path new
    /\ flashed_if_given example_config "system" (Some "system.img") new system_commands
    /\ flashed_if_given example_config "userdata" (Some "userdata.img") new
         userdata_commands
    /\ commands_run new
       = (erase_boot_commands example_config nexus10
          ++ system_commands ++ userdata_commands)%list
    /\ __boot_image__ (self (final scenario_full_deploy)) = Some boot_path.
Proof.
  exact (@deploy_android_flashes example_config nexus10 "boot.img" (Some "system.img")
           (Some "userdata.img") None None (Some "android") (Some "/scratch")
           world_ok fresh world_ok_commands_succeed world_ok_paths_succeed).
Defined.

(** ** What a deploy does to the boot target *)

Section Leaves.

Context {X : Type} (field : Driver -> X).

Lemma leaves_ret {A} (a : A) : leaves field (ret a : Drv A).
Proof. intros w st. reflexivity. Qed.

Lemma leaves_raise {A} (e : Exn) : leaves field (raise e : Drv A).
Proof. intros w st. reflexivity. Qed.

Lemma leaves_gets {A} (f : Driver -> A) : leaves field (gets f).
Proof. intros w st. reflexivity. Qed.

Lemma leaves_modify (f : Driver -> Driver) :
  (forall d, field (f d) = field d) -> leaves field (modify f).
Proof. intros H w st. apply H. Qed.

Lemma leaves_bind {A B} (m : Drv A) (k : A -> Drv B) :
  leaves field m -> (forall a, leaves field (k a)) -> leaves field (bind m k).
Proof.
  intros Hm Hk w st. unfold bind, final. specialize (Hm w st). unfold final in Hm.
  destruct (m w st) as [[a | e] st']; cbn [snd] in *.
  - rewrite <- Hm. apply Hk.
  - exact Hm.
Qed.

Lemma leaves_try_except {A} (body : Drv A) (clauses : list (Except Driver A)) :
  leaves field body ->
  Forall (fun clause => forall e, leaves field (snd clause e)) clauses ->
  leaves field (try_except body clauses).
Proof.
  intros Hbody Hclauses w st. unfold try_except, final.
  specialize (Hbody w st). unfold final in Hbody.
  destruct (body w st) as [[a | e] st']; cbn [snd] in *; [exact Hbody |].
  destruct (find (fun clause => fst clause e) clauses) as [clause |] eqn:E;
    [| exact Hbody].
  apply find_some in E. destruct E as [E _].
  rewrite Forall_forall in Hclauses. rewrite <- Hbody. apply (Hclauses clause E).
Qed.

Lemma leaves_call_done (c : Call) : leaves field (call_done c).
Proof. intros w st. reflexivity. Qed.

Lemma leaves_call_status (c : Call) : leaves field (call_status c).
Proof. intros w st. reflexivity. Qed.

Lemma leaves_call_path (c : Call) : leaves field (call_path c).
Proof.
  intros w st. unfold call_path. destruct (path_result w (history st) c); reflexivity.
Qed.

Lemma leaves_call_proc (c : Call) : leaves field (call_proc c).
Proof.
  intros w st. unfold call_proc. destruct (proc_result w (history st) c); reflexivity.
Qed.

Lemma leaves_call_unit (c : Call) : leaves field (call_unit c).
Proof. intros w st. unfold call_unit. destruct (fault w (history st) c); reflexivity. Qed.

End Leaves.

(** Goes through a computation built from the combinators, unfolding the
    driver's methods on the way; an assignment must not touch the field. *)
Ltac frame :=
  repeat first
    [ apply leaves_ret
    | apply leaves_raise
    | apply leaves_gets
    | apply leaves_call_done
    | apply leaves_call_status
    | apply leaves_call_path
    | apply leaves_call_proc
    | apply leaves_call_unit
    | apply leaves_modify; intros []; reflexivity
    | apply leaves_bind; [| intros ?]
    | apply leaves_try_except;
      [| repeat apply Forall_cons;
         [intros ?; unfold except; cbn [snd] .. | apply Forall_nil]]
    | match goal with
      | |- leaves _ (match ?x with _ => _ end) => destruct x
      | |- leaves _ ?m => let f := head_of m in progress unfold f
      end ].

Lemma sets_last_bind {A B} (m : Drv A) (k : A -> Drv B) :
  leaves __boot_image__ m ->
  (forall a, sets_boot_target_last (k a)) ->
  sets_boot_target_last (bind m k).
Proof.
  intros Hm Hk w st. unfold bind, outcome, final. specialize (Hm w st).
  unfold final in Hm.
  destruct (m w st) as [[a | e] st']; cbn [fst snd] in *.
  - specialize (Hk a w st'). unfold outcome, final in Hk. rewrite <- Hm. exact Hk.
  - exact Hm.
Qed.

Lemma sets_last_raise {A} (e : Exn) : sets_boot_target_last (raise e : Drv A).
Proof. intros w st. reflexivity. Qed.

Lemma sets_last_assign (image : string) :
  sets_boot_target_last (modify (set_boot_image (Some image))).
Proof. intros w [d h]. cbn. discriminate. Qed.

Lemma deploy_android_sets_last (config : Config) (cls : Board)
    (boot system userdata rootfstype bootloadertype target_type scratch_dir : Py.value) :
  sets_boot_target_last
    (deploy_android config cls boot system userdata rootfstype bootloadertype
       target_type scratch_dir).
Proof.
  unfold deploy_android, BaseDriver_deploy_android.
  repeat (apply sets_last_bind; [solve [frame] | intros ?]).
  apply sets_last_assign.
Qed.

Lemma deploy_linaro_kernel_sets_last (config : Config) (cls : Board)
    (kernel ramdisk dtb modules rootfs nfsrootfs bootloader firmware
       bl1 bl2 bl31 rootfstype bootloadertype target_type scratch_dir : Py.value) :
  sets_boot_target_last
    (deploy_linaro_kernel config cls kernel ramdisk dtb modules rootfs nfsrootfs
       bootloader firmware bl1 bl2 bl31 rootfstype bootloadertype target_type
       scratch_dir).
Proof.
  destruct cls; try apply sets_last_raise;
    unfold deploy_linaro_kernel, BaseDriver_deploy_linaro_kernel;
    repeat (apply sets_last_bind; [solve [frame] | intros ?]);
    apply sets_last_assign.
Qed.

(** X13.  Both deploys assign the boot target as their very last step.  A
    deploy that raises, whatever the reason and however far it got, leaves the
    boot target exactly as it was; a deploy that returns leaves one set. *)
Theorem deploy_sets_boot_target_last (config : Config) (cls : Board)
    (boot system userdata kernel ramdisk dtb modules rootfs nfsrootfs bootloader firmware
       bl1 bl2 bl31 rootfstype bootloadertype target_type scratch_dir : Py.value)
    (w : World) (st : Store Driver) :
  let android :=
    deploy_android config cls boot system userdata rootfstype bootloadertype
      target_type scratch_dir w st in
  let linaro :=
    deploy_linaro_kernel config cls kernel ramdisk dtb modules rootfs nfsrootfs
      bootloader firmware bl1 bl2 bl31 rootfstype bootloadertype target_type
      scratch_dir w st in
  match outcome android with
  | Raise _ => __boot_image__ (self (final android)) = __boot_image__ (self st)
  | Return _ => __boot_image__ (self (final android)) <> None
  end
  /\
  match outcome linaro with
  | Raise _ => __boot_image__ (self (final linaro)) = __boot_image__ (self st)
  | Return _ => __boot_image__ (self (final linaro)) <> None
  end.
Proof.
  split.
  - apply deploy_android_sets_last.
  - apply deploy_linaro_kernel_sets_last.
Qed.

(** ** Booting on the boards that flash the boot partition *)

(** X14.  On the four boards that define their own [boot], booting is a flash
    of the boot partition with the boot target followed by a reboot; the boot
    arguments play no part.  A failed flash is raised at once, without the
    reboot.  [pxa1928dkb] alone then waits for the bridge, and only when the
    target is android. *)
Theorem overriding_boot_sequence :
  Forall
    (fun cls =>
       forall config boot_cmds w st,
         let flash :=
           fastboot_invocation config 600
             ("flash boot " ++ Py.fmt (__boot_image__ (self st))) in
         let reboot := fastboot_invocation config 600 "reboot" in
         let wait := adb_invocation config 600 "wait-for-device" in
         let rc1 := exit_status w (history st) (RunCommand flash false) in
         let h1 := (history st ++ [(RunCommand flash false, Status rc1)])%list in
         let rc2 := exit_status w h1 (RunCommand reboot false) in
         let h2 := (h1 ++ [(RunCommand reboot false, Status rc2)])%list in
         let rc3 := exit_status w h2 (RunCommand wait false) in
         boot config cls boot_cmds w st
         = if rc1 =? 0 then
             if rc2 =? 0 then
               match cls with
               | pxa1928dkb =>
                   if is_android (target_type (self st)) then
                     (if rc3 =? 0 then Return tt else Raise (CalledProcessError rc3 wait),
                      mkStore (self st) (h2 ++ [(RunCommand wait false, Status rc3)])%list)
                   else (Return tt, mkStore (self st) h2)
               | _ => (Return tt, mkStore (self st) h2)
               end
             else (Raise (CalledProcessError rc2 reboot), mkStore (self st) h2)
           else (Raise (CalledProcessError rc1 flash), mkStore (self st) h1))
    boot_overriding_boards.
Proof.
  unfold boot_overriding_boards, fastboot_invocation, adb_invocation.
  repeat apply Forall_cons; try apply Forall_nil;
    intros config boot_cmds w [d h]; step; cbn [append];
    case_status; step; try reflexivity;
    case_status; step; try reflexivity;
    (destruct (is_android (target_type d)); [| reflexivity]);
    step; case_status; reflexivity.
Qed.

(** ** What a call may change in a driver *)

Lemma evolves_refl (d : Driver) : evolves d d.
Proof. unfold evolves. auto. Qed.

Lemma evolves_trans (d1 d2 d3 : Driver) : evolves d1 d2 -> evolves d2 d3 -> evolves d1 d3.
Proof.
  unfold evolves. intros (K1 & W1 & [B1 | B1]) (K2 & W2 & [B2 | B2]);
    repeat split; auto; rewrite ?B2, ?B1; auto.
Qed.

Section Respects.

Variable R : Driver -> Driver -> Prop.
Hypothesis R_refl : forall d, R d d.
Hypothesis R_trans : forall d1 d2 d3, R d1 d2 -> R d2 d3 -> R d1 d3.

Lemma respects_ret {A} (a : A) : respects R (ret a : Drv A).
Proof. intros w st. apply R_refl. Qed.

Lemma respects_raise {A} (e : Exn) : respects R (raise e : Drv A).
Proof. intros w st. apply R_refl. Qed.

Lemma respects_gets {A} (f : Driver -> A) : respects R (gets f).
Proof. intros w st. apply R_refl. Qed.

Lemma respects_modify (f : Driver -> Driver) :
  (forall d, R d (f d)) -> respects R (modify f).
Proof. intros H w st. apply H. Qed.

Lemma respects_bind {A B} (m : Drv A) (k : A -> Drv B) :
  respects R m -> (forall a, respects R (k a)) -> respects R (bind m k).
Proof.
  intros Hm Hk w st. unfold bind, final. specialize (Hm w st). unfold final in Hm.
  destruct (m w st) as [[a | e] st']; cbn [snd] in *.
  - apply (R_trans Hm). apply Hk.
  - exact Hm.
Qed.

Lemma respects_try_except {A} (body : Drv A) (clauses : list (Except Driver A)) :
  respects R body ->
  Forall (fun clause => forall e, respects R (snd clause e)) clauses ->
  respects R (try_except body clauses).
Proof.
  intros Hbody Hclauses w st. unfold try_except, final.
  specialize (Hbody w st). unfold final in Hbody.
  destruct (body w st) as [[a | e] st']; cbn [snd] in *; [exact Hbody |].
  destruct (find (fun clause => fst clause e) clauses) as [clause |] eqn:E;
    [| exact Hbody].
  apply find_some in E. destruct E as [E _].
  rewrite Forall_forall in Hclauses. apply (R_trans Hbody). apply (Hclauses clause E).
Qed.

Lemma respects_call_done (c : Call) : respects R (call_done c).
Proof. intros w st. apply R_refl. Qed.

Lemma respects_call_status (c : Call) : respects R (call_status c).
Proof. intros w st. apply R_refl. Qed.

Lemma respects_call_path (c : Call) : respects R (call_path c).
Proof.
  intros w st. unfold call_path.
  destruct (path_result w (history st) c); apply R_refl.
Qed.

Lemma respects_call_proc (c : Call) : respects R (call_proc c).
Proof.
  intros w st. unfold call_proc.
  destruct (proc_result w (history st) c); apply R_refl.
Qed.

Lemma respects_call_unit (c : Call) : respects R (call_unit c).
Proof.
  intros w st. unfold call_unit. destruct (fault w (history st) c); apply R_refl.
Qed.

End Respects.

(** The one assignment that needs the state it runs in: the working
    directory is assigned only while there is none. *)
Lemma working_dir_evolves (config : Config) :
  respects evolves (BaseDriver_working_dir config).
Proof.
  intros w [d h]. unfold BaseDriver_working_dir.
  destruct (shared_working_directory config) as [shared |];
    [destruct (Py.strip shared =? EmptyString)%string |];
    step; try apply evolves_refl.
  destruct (_working_dir d) as [made |] eqn:E; step; [apply evolves_refl |].
  destruct (path_result w h (Mkdtemp shared)); step; [apply evolves_refl |].
  unfold evolves. cbn. rewrite E. repeat split; auto. discriminate.
Qed.

Ltac evolve :=
  repeat first
    [ apply respects_ret; [exact evolves_refl]
    | apply respects_raise; [exact evolves_refl]
    | apply respects_gets; [exact evolves_refl]
    | apply respects_call_done; [exact evolves_refl]
    | apply respects_call_status; [exact evolves_refl]
    | apply respects_call_path; [exact evolves_refl]
    | apply respects_call_proc; [exact evolves_refl]
    | apply respects_call_unit; [exact evolves_refl]
    | apply working_dir_evolves
    | apply respects_modify; intros [];
      unfold evolves; cbn; repeat split; solve [auto | discriminate]
    | apply respects_bind; [exact evolves_trans | | intros ?]
    | apply respects_try_except;
      [exact evolves_trans | | repeat apply Forall_cons;
         [intros ?; unfold except; cbn [snd] .. | apply Forall_nil]]
    | match goal with
      | |- respects _ (match ?x with _ => _ end) => destruct x
      | |- respects _ ?m => let f := head_of m in progress unfold f
      end ].

Lemma perform_evolves (config : Config) (cls : Board) (op : Op) :
  respects evolves (perform config cls op).
Proof.
  destruct cls; destruct op as [ | | | | | | | | | | | | [] | ]; unfold perform; evolve.
Qed.

(** X15.  No call on a driver ever clears its kernel artifact: if there is
    one before the call there is one after it, whatever the call, the class
    and the world. *)
Theorem kernel_never_cleared (config : Config) (cls : Board) (op : Op) (w : World)
    (st : Store Driver) :
  _kernel (self st) <> None ->
  _kernel (self (final (perform config cls op w st))) <> None.
Proof.
  intros H. exact (proj1 (perform_evolves config cls op w st) H).
Qed.

Lemma kernel_never_cleared_witness : _kernel (self kernel_then_android) <> None.
Proof.
  exact (@kernel_never_cleared example_config fastboot_serial
           (op_deploy_android (Some "boot.img") None None None None (Some "android")
              (Some "/scratch"))
           world_ok after_scenario_kernel_deploy ltac:(discriminate)).
Defined.

(** X16.  A shared working directory, once made, stays the driver's working
    directory through every later call. *)
Theorem working_dir_kept (config : Config) (cls : Board) (op : Op) (w : World)
    (st : Store Driver) (dir : string) :
  _working_dir (self st) = Some dir ->
  _working_dir (self (final (perform config cls op w st))) = Some dir.
Proof.
  intros H. exact (proj1 (proj2 (perform_evolves config cls op w st)) dir H).
Qed.

Lemma working_dir_kept_witness :
  _working_dir
    (self (final (perform config_without_load_addr fastboot_serial
                    (op_deploy_android (Some "boot.img") None None None None
                       (Some "android") (Some "/scratch"))
                    world_ok after_kernel_only_deploy)))
  = Some "/var/lib/lava/shared/tmp0".
Proof.
  exact (@working_dir_kept config_without_load_addr fastboot_serial
           (op_deploy_android (Some "boot.img") None None None None (Some "android")
              (Some "/scratch"))
           world_ok after_kernel_only_deploy "/var/lib/lava/shared/tmp0" eq_refl).
Defined.

(** X17.  In every state a driver can reach, the default boot commands are
    one of the two profiles, ramdisk or rootfs; and once they are the rootfs
    profile, no call brings the ramdisk profile back. *)
Theorem default_boot_cmds_profiles (config : Config) (w : World) (cls : Board)
    (st : Store Driver) :
  reachable config w cls st ->
  (_default_boot_cmds (self st) = "boot_cmds_ramdisk"
   \/ _default_boot_cmds (self st) = "boot_cmds_rootfs")
  /\ forall op,
       _default_boot_cmds (self st) = "boot_cmds_rootfs" ->
       _default_boot_cmds (self (final (perform config cls op w st))) = "boot_cmds_rootfs".
Proof.
  intros Hreach. split.
  - induction Hreach as [h | st op Hreach IH]; [left; reflexivity |].
    destruct (perform_evolves config cls op w st) as (_ & _ & [E | E]).
    + rewrite E. exact IH.
    + right. exact E.
  - intros op H.
    destruct (perform_evolves config cls op w st) as (_ & _ & [E | E]).
    + rewrite E. exact H.
    + exact E.
Qed.

Lemma default_boot_cmds_profiles_witness :
  _default_boot_cmds (self (final scenario_rootfs_deploy)) = "boot_cmds_ramdisk"
  \/ _default_boot_cmds (self (final scenario_rootfs_deploy)) = "boot_cmds_rootfs".
Proof.
  exact (proj1 (@default_boot_cmds_profiles example_config world_ok BaseDriver
                  (final scenario_rootfs_deploy)
                  (reachable_step
                     (op_deploy_linaro_kernel (Some "zImage") None None None
                        (Some "rootfs.img") None None None None None None None None
                        (Some "oe") (Some "/scratch"))
                     (reachable_init example_config world_ok BaseDriver [])))).
Defined.

(** ** A kernel deploy followed by an OS-image deploy *)

(** X18.  On a driver that runs the base class's [boot] and already holds a
    kernel artifact, an OS-image deploy that returns does not bring the boot
    back to the image it deployed: with a load address configured, the boot
    that follows is still the one kernel boot command, with the kernel and
    the ramdisk the driver held before the deploy. *)
Theorem boot_after_kernel_then_android (config : Config) (cls : Board)
    (boot_url system userdata rootfstype bootloadertype target_type scratch_dir
       boot_cmds : Py.value)
    (kernel : string) (w : World) (st st1 : Store Driver) :
  In cls kernel_deploying_boards ->
  _kernel (self st) = Some kernel ->
  Py.truthy (fastboot_kernel_load_addr config) = true ->
  deploy_android config cls boot_url system userdata rootfstype bootloadertype
    target_type scratch_dir w st = (Return tt, st1) ->
  let args :=
    match _ramdisk (self st) with
    | Some ramdisk => kernel_boot_args config boot_cmds kernel ramdisk
    | None =>
        "boot -c " ++ Py.dquote ++ Py.fmt boot_cmds ++ Py.dquote ++ " -b "
        ++ Py.fmt (fastboot_kernel_load_addr config) ++ " " ++ kernel
    end in
  let command := fastboot_invocation config 600 args in
  let rc := exit_status w (history st1) (RunCommand command false) in
  boot config cls boot_cmds w st1
  = (if rc =? 0 then Return tt else Raise (CalledProcessError rc command),
     mkStore (self st1) (history st1 ++ [(RunCommand command false, Status rc)])%list).
Proof.
  intros Hcls Hkernel Hload Hdeploy.
  assert (Hk : _kernel (self st1) = Some kernel).
  { rewrite <- Hkernel.
    assert (L : leaves _kernel
                  (deploy_android config cls boot_url system userdata rootfstype
                     bootloadertype target_type scratch_dir))
      by (unfold deploy_android; frame).
    specialize (L w st). rewrite Hdeploy in L. exact L. }
  assert (Hr : _ramdisk (self st1) = _ramdisk (self st)).
  { assert (L : leaves _ramdisk
                  (deploy_android config cls boot_url system userdata rootfstype
                     bootloadertype target_type scratch_dir))
      by (unfold deploy_android; frame).
    specialize (L w st). rewrite Hdeploy in L. exact L. }
  assert (Hb : __boot_image__ (self st1) <> None).
  { pose proof (deploy_android_sets_last config cls boot_url system userdata rootfstype
                  bootloadertype target_type scratch_dir w st) as L.
    rewrite Hdeploy in L. exact L. }
  rewrite <- Hr. clear Hdeploy Hr Hkernel. destruct st1 as [d1 h1].
  cbn [self history] in *. unfold fastboot_invocation, kernel_boot_args.
  destruct (__boot_image__ d1) as [image |] eqn:Eb; [| contradiction].
  unfold kernel_deploying_boards in Hcls. cbn [In] in Hcls.
  destruct Hcls as [<- | [<- | []]]; step; rewrite Eb; step; rewrite Hk; step;
    destruct (_ramdisk d1); step; rewrite Hload; step; case_status; reflexivity.
Qed.

Lemma boot_after_kernel_then_android_witness :
  commands_run
    (history (final (boot example_config fastboot_serial None world_ok
                       kernel_then_android)))
  = (commands_run (history kernel_then_android)
     ++ [fastboot_invocation example_config 600
           (kernel_boot_args example_config None "/scratch/zImage"
              "None/ramdisk.repacked")])%list.
Proof.
  rewrite (@boot_after_kernel_then_android example_config fastboot_serial
             (Some "boot.img") None None None None (Some "android") (Some "/scratch")
             None "/scratch/zImage" world_ok after_scenario_kernel_deploy
             kernel_then_android
             (or_intror (or_introl eq_refl)) eq_refl eq_refl eq_refl).
  reflexivity.
Defined.

(** ** The boot action of the test image *)

Ltac unfold_action :=
  cbv beta iota zeta delta
    [cmd_boot_linaro_image_run bind ret raise gets modify try_except except try_finally
     with_local lift get_local set_local logging call_done record finish
     boot_image_client find fst snd is_anything KeyboardInterrupt];
  cbn [self history boot_cmds android_wait_for_home_screen_activity test_image_prompts
       boot_options android_wait_for_home_screen android_boot_uiautomator_jar
       android_boot_uiautomator_commands fst snd].

(** X19.  [cmd_boot_linaro_image.run] replaces the client's boot commands
    only when some are given, appends the prompt only when one is given and
    always replaces the boot options; then it boots.  Whatever the boot does,
    the result is recorded exactly once, as the last thing the action does:
    [pass] when the boot returned and also when it was interrupted from the
    keyboard, [fail] after any other exception, which is logged and replaced
    by the fatal error.  An exception of the recording itself takes over. *)
Theorem boot_image_result_recorded
    (client_boot_linaro_image : M Client unit)
    (test_data_add_result : string -> string -> M Client unit)
    (options : list string) (boot_cmds_arg : option (list string))
    (test_image_prompt : Py.value) (w : World) (st : Store Client) :
  let st1 :=
    mkStore (boot_image_client options boot_cmds_arg test_image_prompt (self st))
      (history st) in
  cmd_boot_linaro_image_run client_boot_linaro_image test_data_add_result options
    boot_cmds_arg test_image_prompt w st
  = match client_boot_linaro_image w st1 with
    | (Return _, st2) =>
        finish (Return tt) (test_data_add_result "boot_image" "pass" w st2)
    | (Raise e, st2) =>
        if is_KeyboardInterrupt e then
          finish (Raise (NonException "KeyboardInterrupt"))
            (test_data_add_result "boot_image" "pass" w st2)
        else
          finish (Raise (CriticalError "Failed to boot test image."))
            (test_data_add_result "boot_image" "fail" w
               (record (Logging ERROR "boot_linaro_image failed" []) Done st2))
    end.
Proof.
  destruct st as [[] h]. destruct boot_cmds_arg, test_image_prompt; unfold_action;
    (destruct (client_boot_linaro_image w _) as [[[] | e] [c2 h2]]; unfold_action;
     [| destruct (is_KeyboardInterrupt e); unfold_action]);
    destruct (test_data_add_result _ _ w _) as [[[] | e'] [c3 h3]]; reflexivity.
Qed.

(** ** Entering the scope of the remote files *)

(** X20.  The scope over the remote files is not entered, and the caller's
    body does not run, when the partition has no mount point ([KeyError], with
    nothing called) or when the staging directory cannot be made (the failure
    of [mkdir], with no pull). *)
Theorem adb_file_system_entry (config : Config) (partition directory : string)
    (A : Type) (body : string -> Drv A) (w : World) (st : Store Driver) :
  let scope :=
    with_contextmanager (BaseDriver_adb_file_system config partition directory) body
      w st in
  (partition <> sys_part_android_org config ->
   partition <> data_part_android_org config ->
   scope = (Raise (KeyError partition), st))
  /\
  (forall mount_point dir st0,
      BaseDriver__get_partition_mount_point config partition w st
      = (Return mount_point, st) ->
      BaseDriver_working_dir config w st = (Return dir, st0) ->
      let host_dir := Py.fmt dir ++ "/mnt/" ++ directory in
      let mkdir := CheckCall ["mkdir"; "-p"; host_dir] in
      let rc := exit_status w (history st0) mkdir in
      rc <> 0 ->
      scope = (Raise (CalledProcessError rc (String.concat " " ["mkdir"; "-p"; host_dir])),
               mkStore (self st0) (history st0 ++ [(mkdir, Status rc)])%list)).
Proof.
  intros scope. subst scope. split.
  - intros Hs Hd.
    assert (E : BaseDriver__get_partition_mount_point config partition w st
                = (Raise (KeyError partition), st)).
    { unfold BaseDriver__get_partition_mount_point, Py.dict_literal, Py.dict_set.
      cbn [fold_left filter fst snd Py.dict_get].
      destruct (String.eqb_spec (sys_part_android_org config) partition);
        [congruence |].
      destruct (negb (data_part_android_org config =? sys_part_android_org config)%string);
        cbn [Py.dict_get]; [| reflexivity].
      destruct (String.eqb_spec (data_part_android_org config) partition);
        [congruence | reflexivity]. }
    cbv beta iota zeta delta [with_contextmanager BaseDriver_adb_file_system bind].
    rewrite E. reflexivity.
  - intros mount_point dir [d0 h0] Hmp Hwd host_dir mkdir rc Hrc.
    subst rc mkdir host_dir. cbn [history self] in *.
    cbv beta iota zeta delta [with_contextmanager BaseDriver_adb_file_system bind].
    rewrite Hmp. cbv beta iota. rewrite Hwd. step.
    case_status; [contradiction | reflexivity].
Qed.

Lemma adb_file_system_entry_witness :
  with_contextmanager
    (BaseDriver_adb_file_system example_config unknown_partition "local/tmp")
    writing_body world_ok staged
  = (Raise (KeyError unknown_partition), staged)
  /\
  with_contextmanager (BaseDriver_adb_file_system example_config "system" "etc")
    writing_body world_commands_fail staged
  = (Raise (CalledProcessError 1 "mkdir -p /scratch/mnt/etc"),
     mkStore (self staged)
       (history staged ++ [(CheckCall ["mkdir"; "-p"; "/scratch/mnt/etc"], Status 1)])%list).
Proof.
  split.
  - exact (proj1 (@adb_file_system_entry example_config unknown_partition "local/tmp"
                    unit writing_body world_ok staged)
             ltac:(discriminate) ltac:(discriminate)).
  - exact (proj2 (@adb_file_system_entry example_config "system" "etc"
                    unit writing_body world_commands_fail staged)
             "/system" (Some "/scratch") staged eq_refl eq_refl ltac:(discriminate)).
Defined.
